(** * core-js-101, [src/04-date-tasks.js]: date and time tasks

    A shallow embedding of the five functions of the module
    ([parseDataFromRfc2822], [parseDataFromIso8601], [isLeapYear],
    [timeSpanToString], [angleBetweenClockHands]) together with the part of
    the ECMAScript platform they call ([Date], [Number], [String], [Math]).

    Numbers.  Every number that [isLeapYear] and [timeSpanToString] handle
    is either [NaN] or an integer-valued double: a time value, a difference
    of two time values, a quotient that is floored at once, a remainder.
    They are modelled by [Number], [NaN] or an integer.  A time value is at
    most 8.64e15 < 2^53 in magnitude and so is a double; the difference of
    two of them can exceed 2^53, where doubles are the even integers, and the
    subtraction rounds it ([round_to_double]).  The remainders are exact in
    binary64, and the floored quotients of such a difference by 3600000,
    60000 and 1000 are the integer quotients.  [angleBetweenClockHands]
    computes with fractions
    and with [Math.PI]; its body is written once over an interface of
    arithmetic operations and read twice, in exact real arithmetic and in
    IEEE 754 binary64. *)

From Stdlib Require Import ZArith Lia Bool List String Ascii.
From Stdlib Require Import Reals Lra.
From Stdlib Require Import SpecFloat.

Local Open Scope string_scope.
Local Open Scope Z_scope.

(** ** The platform: ECMAScript values *)

Module JS.

(** A JavaScript number as the integer tasks see it. *)
Inductive Number : Type :=
| NaN : Number
| Int : Z -> Number.

(** The double nearest to the integer [z], ties going to the even 53-bit
    significand (for [z] below 2^1024 in magnitude, beyond which a double
    overflows).  An integer of at most 53 bits is a double; a longer one is
    rounded to a multiple of [2 ^ e], the unit of its last place. *)
Definition round_to_double (z : Z) : Z :=
  let a := Z.abs z in
  let e := Z.log2 a - 52 in
  if e <=? 0 then z
  else
    let q := a / 2 ^ e in
    let r := a mod 2 ^ e in
    let q' :=
      if 2 * r <? 2 ^ e then q
      else if 2 ^ e <? 2 * r then q + 1
      else if Z.even q then q else q + 1 in
    Z.sgn z * (q' * 2 ^ e).

(** [a - b] on two doubles that hold integers: the difference, rounded. *)
Definition Number_sub (a b : Number) : Number :=
  match a, b with
  | Int x, Int y => Int (round_to_double (x - y))
  | _, _ => NaN
  end.

(** [Math.abs(a)]. *)
Definition Math_abs (a : Number) : Number :=
  match a with
  | Int x => Int (Z.abs x)
  | NaN => NaN
  end.

(** [a % b]: the remainder takes the sign of the dividend, and a zero
    divisor gives [NaN]. *)
Definition Number_rem (a b : Number) : Number :=
  match a, b with
  | Int x, Int y => if y =? 0 then NaN else Int (Z.rem x y)
  | _, _ => NaN
  end.

(** [Math.floor(a / b)] for a positive literal divisor [b]. *)
Definition Math_floor_div (a : Number) (b : positive) : Number :=
  match a with
  | Int x => Int (x / Z.pos b)
  | NaN => NaN
  end.

(** [a > b]: false as soon as one side is [NaN]. *)
Definition Number_gt (a b : Number) : bool :=
  match a, b with
  | Int x, Int y => x >? y
  | _, _ => false
  end.

(** [a === b] on numbers: [NaN] is equal to nothing. *)
Definition Number_eq (a b : Number) : bool :=
  match a, b with
  | Int x, Int y => x =? y
  | _, _ => false
  end.

(** [a !== b]. *)
Definition Number_neq (a b : Number) : bool := negb (Number_eq a b).

Definition isNaN (a : Number) : bool :=
  match a with
  | NaN => true
  | Int _ => false
  end.

(** *** Strings *)

Definition digit_char (d : Z) : ascii := ascii_of_nat (48 + Z.to_nat d).

Definition is_digit (c : ascii) : bool :=
  let n := nat_of_ascii c in (48 <=? n)%nat && (n <=? 57)%nat.

(** The decimal digits of a non-negative integer, most significant first. *)
Fixpoint digits_fuel (fuel : nat) (n : Z) : string :=
  match fuel with
  | O => EmptyString
  | S fuel' =>
      if n <? 10 then String (digit_char n) EmptyString
      else digits_fuel fuel' (n / 10) ++ String (digit_char (n mod 10)) EmptyString
  end.

Definition digits (n : Z) : string := digits_fuel (S (Z.to_nat (Z.log2 n))) n.

(** [Number.prototype.toString()] and the conversion that [string + number]
    applies.  Integers below 10^21 in magnitude are printed in plain decimal
    notation, which covers every number made from time values. *)
Definition Number_toString (a : Number) : string :=
  match a with
  | NaN => "NaN"
  | Int x => if x <? 0 then "-" ++ digits (- x) else digits x
  end.

(** [s.length]. *)
Definition String_length (s : string) : Z := Z.of_nat (String.length s).

Fixpoint string_skip (n : nat) (s : string) : string :=
  match n, s with
  | O, _ => s
  | S _, EmptyString => EmptyString
  | S n', String _ s' => string_skip n' s'
  end.

(** [s.slice(start)]: a negative [start] counts from the end, and the
    start position is clamped to the string. *)
Definition String_slice (s : string) (start : Z) : string :=
  let len := String_length s in
  let from := if start <? 0 then Z.max (len + start) 0 else Z.min start len in
  string_skip (Z.to_nat from) s.

(** *** Completions and the values a caller can pass *)

Inductive Completion (A : Type) : Type :=
| Normal : A -> Completion A
| Throw : string -> Completion A.

Arguments Normal {A} _.
Arguments Throw {A} _.

(** A call that throws ends the caller as well. *)
Definition bind {A B : Type} (c : Completion A) (k : A -> Completion B)
  : Completion B :=
  match c with
  | Normal a => k a
  | Throw e => Throw e
  end.

Notation "'let!' x ':=' c 'in' k" := (bind c (fun x => k))
  (at level 10, x name, c at level 100, k at level 200).

(** Primitive values (objects are left out). *)
Inductive Value : Type :=
| VUndefined : Value
| VNull : Value
| VBoolean : bool -> Value
| VNumber : Number -> Value
| VString : string -> Value
| VSymbol : string -> Value
| VBigInt : Z -> Value.

(** *** Dates *)

(** A [Date] object holds a time value: [NaN] (an "Invalid Date") or a
    number of milliseconds since 1970-01-01T00:00:00Z. *)
Record Date : Type := mkDate { DateValue : Number }.

Definition msPerDay : Z := 86400000.
Definition msPerHour : Z := 3600000.
Definition msPerMinute : Z := 60000.
Definition maxTimeValue : Z := 8640000000000000.

Definition TimeClip (time : Number) : Number :=
  match time with
  | NaN => NaN
  | Int t => if Z.abs t >? maxTimeValue then NaN else Int t
  end.

Definition Day (t : Z) : Z := t / msPerDay.

Definition DayFromYear (y : Z) : Z :=
  365 * (y - 1970) + (y - 1969) / 4 - (y - 1901) / 100 + (y - 1601) / 400.

Definition DaysInYear (y : Z) : Z :=
  if negb (y mod 4 =? 0) then 365
  else if negb (y mod 100 =? 0) then 366
  else if negb (y mod 400 =? 0) then 365
  else 366.

(** The largest year [y] with [DayFromYear y <= Day t]: an estimate from the
    mean length of a Gregorian year, corrected by at most one. *)
Definition YearFromTime (t : Z) : Z :=
  let d := Day t in
  let y := 1970 + (400 * d) / 146097 in
  if d <? DayFromYear y then y - 1
  else if DayFromYear (y + 1) <=? d then y + 1
  else y.

Definition HourFromTime (t : Z) : Z := (t / msPerHour) mod 24.
Definition MinFromTime (t : Z) : Z := (t / msPerMinute) mod 60.

(** [date.getTime()]. *)
Definition getTime (date : Date) : Number := DateValue date.

(** [date.getUTCHours()]. *)
Definition getUTCHours (date : Date) : Number :=
  match DateValue date with
  | NaN => NaN
  | Int t => Int (HourFromTime t)
  end.

(** The validity query [!isNaN(date.getTime())]. *)
Definition isValidDate (date : Date) : bool := negb (isNaN (getTime date)).

Section LocalPlatform.

(** What the host supplies: the offset of local time from UTC, in
    milliseconds, at a given instant, and the parser behind [Date.parse]. *)
Variable LocalTZA : Z -> Z.
Variable Date_parse : string -> Number.

Definition LocalTime (t : Z) : Z := t + LocalTZA t.

(** [date.getFullYear()]. *)
Definition getFullYear (date : Date) : Number :=
  match DateValue date with
  | NaN => NaN
  | Int t => Int (YearFromTime (LocalTime t))
  end.

(** [date.getMinutes()]. *)
Definition getMinutes (date : Date) : Number :=
  match DateValue date with
  | NaN => NaN
  | Int t => Int (MinFromTime (LocalTime t))
  end.

(** [new Date(value)] with one primitive argument: a string is parsed, any
    other value is converted to a number, which throws a [TypeError] for a
    symbol or a bigint. *)
Definition new_Date (value : Value) : Completion Date :=
  match value with
  | VString s => Normal (mkDate (TimeClip (Date_parse s)))
  | VNumber n => Normal (mkDate (TimeClip n))
  | VUndefined => Normal (mkDate NaN)
  | VNull => Normal (mkDate (TimeClip (Int 0)))
  | VBoolean b => Normal (mkDate (TimeClip (Int (if b then 1 else 0))))
  | VSymbol _ => Throw "TypeError"
  | VBigInt _ => Throw "TypeError"
  end.

End LocalPlatform.

(** *** Arithmetic on numbers with fractions *)

(** The operations of [angleBetweenClockHands], over a type [F] of numbers:
    integer literals and integer date components, [+ - * /], [Math.abs],
    [>] and [Math.PI]. *)
Class Arithmetic (F : Type) : Type := {
  of_int : Z -> F;
  add : F -> F -> F;
  sub : F -> F -> F;
  mul : F -> F -> F;
  div : F -> F -> F;
  fabs : F -> F;
  gt : F -> F -> bool;
  Math_PI : F
}.

Declare Scope js_scope.
Delimit Scope js_scope with js.
Notation "x + y" := (add x y) : js_scope.
Notation "x - y" := (sub x y) : js_scope.
Notation "x * y" := (mul x y) : js_scope.
Notation "x / y" := (div x y) : js_scope.
Notation "x > y" := (gt x y) : js_scope.

(** Exact arithmetic on the reals. *)
#[export] Instance Exact : Arithmetic R := {
  of_int := IZR;
  add := Rplus;
  sub := Rminus;
  mul := Rmult;
  div := Rdiv;
  fabs := Rabs;
  gt := fun a b => if Rgt_dec a b then true else false;
  Math_PI := PI
}.

(** IEEE 754 binary64, rounding to nearest, ties to even. *)
Definition prec : Z := 53.
Definition emax : Z := 1024.

Definition binary64_of_int (z : Z) : spec_float :=
  binary_normalize prec emax z 0 false.

(** [Math.PI], the double 0x1.921fb54442d18p+1. *)
Definition binary64_PI : spec_float :=
  S754_finite false 7074237752028440 (-51).

#[export] Instance Binary64 : Arithmetic spec_float := {
  of_int := binary64_of_int;
  add := SFadd prec emax;
  sub := SFsub prec emax;
  mul := SFmul prec emax;
  div := SFdiv prec emax;
  fabs := SFabs;
  gt := fun a b => SFltb b a;
  Math_PI := binary64_PI
}.

End JS.

Import JS.

(** ** The module under verification *)

Section DateTasks.

Variable LocalTZA : Z -> Z.
Variable Date_parse : string -> Number.

(** function parseDataFromRfc2822(value) *)
Definition parseDataFromRfc2822 (value : Value) : Completion Date :=
  let! data := new_Date Date_parse value in
  Normal data.

(** function parseDataFromIso8601(value) *)
Definition parseDataFromIso8601 (value : Value) : Completion Date :=
  new_Date Date_parse value.

(** function isLeapYear(date) *)
Definition isLeapYear (date : Date) : bool :=
  let result := true in
  let year := getFullYear LocalTZA date in
  let result :=
    if (Number_eq (Number_rem year (Int 100)) (Int 0)
        || Number_neq (Number_rem year (Int 4)) (Int 0))
       && Number_neq (Number_rem year (Int 400)) (Int 0)
    then false
    else result in
  result.

(** function timeSpanToString(startDate, endDate) *)
Definition timeSpanToString (startDate endDate : Date) : string :=
  let diff := Math_abs (Number_sub (getTime endDate) (getTime startDate)) in
  let ms := "000" in
  let s := "00" in
  let m := "00" in
  let h := "00" in
  let hDiff := Math_floor_div diff 3600000 in
  let mDiff := Math_floor_div (Number_rem diff (Int 3600000)) 60000 in
  let sDiff :=
    Math_floor_div (Number_rem (Number_rem diff (Int 3600000)) (Int 60000)) 1000 in
  let msDiff :=
    Number_rem (Number_rem (Number_rem diff (Int 3600000)) (Int 60000)) (Int 1000) in
  let ms :=
    if Number_gt msDiff (Int 0) then
      let str := ms ++ Number_toString msDiff in
      String_slice str (String_length (Number_toString msDiff))
    else ms in
  let s :=
    if Number_gt sDiff (Int 0) then
      let str := s ++ Number_toString sDiff in
      String_slice str (String_length (Number_toString sDiff))
    else s in
  let m :=
    if Number_gt mDiff (Int 0) then
      let str := m ++ Number_toString mDiff in
      String_slice str (String_length (Number_toString mDiff))
    else m in
  let h :=
    if Number_gt hDiff (Int 0) then
      let str := h ++ Number_toString hDiff in
      String_slice str (String_length (Number_toString hDiff))
    else h in
  h ++ ":" ++ m ++ ":" ++ s ++ "." ++ ms.

(** function angleBetweenClockHands(date); [None] stands for the [NaN]
    that an Invalid Date yields. *)
Definition angleBetweenClockHands {F : Type} `{Arithmetic F} (date : Date)
  : option F :=
  match getUTCHours date, getMinutes LocalTZA date with
  | Int hour, Int minute =>
      let hour := if hour >? 12 then Z.rem hour 12 else hour in
      let hourAngle := ((of_int hour + (of_int minute / of_int 60)) * of_int 30)%js in
      let minuteAngle := (of_int minute * of_int 6)%js in
      let diff := (hourAngle - minuteAngle)%js in
      let diff :=
        if (fabs diff > of_int 180)%js then (fabs diff - of_int 360)%js
        else diff in
      Some (fabs ((diff * Math_PI) / of_int 180)%js)
  | _, _ => None
  end.

End DateTasks.

(** ** Vocabulary of the specification *)

(** [w] zeros. *)
Fixpoint zeros (w : nat) : string :=
  match w with
  | O => EmptyString
  | S w' => String "0" (zeros w')
  end.

(** The last [w] decimal digits of [n], that is, [n mod 10^w] written with
    exactly [w] digits. *)
Fixpoint last_digits (w : nat) (n : Z) : string :=
  match w with
  | O => EmptyString
  | S w' => last_digits w' (n / 10) ++ String (digit_char (n mod 10)) EmptyString
  end.

(** Zero padding to a width of at least [w]: zeros are put in front of the
    decimal digits of [n] while there are fewer than [w] of them, and no
    digit is ever dropped. *)
Definition zero_pad (w : nat) (n : Z) : string :=
  zeros (w - String.length (digits n)) ++ digits n.

(** The hour field of a time span string: what precedes the first colon. *)
Fixpoint hour_field (s : string) : string :=
  match s with
  | EmptyString => EmptyString
  | String c s' => if Ascii.eqb c ":" then EmptyString else String c (hour_field s')
  end.

(** Patterns made of the two items the format [^\d{2}:\d{2}:\d{2}\.\d{3}$]
    needs: one digit, or one given character. *)
Inductive item : Type :=
| Digit : item
| Lit : ascii -> item.

Fixpoint matches (pattern : list item) (s : string) : bool :=
  match pattern, s with
  | nil, EmptyString => true
  | Digit :: pattern', String c s' => is_digit c && matches pattern' s'
  | Lit l :: pattern', String c s' => Ascii.eqb c l && matches pattern' s'
  | _, _ => false
  end.

Definition HHmmss_sss : list item :=
  Digit :: Digit :: Lit ":" :: Digit :: Digit :: Lit ":" :: Digit :: Digit
    :: Lit "." :: Digit :: Digit :: Digit :: nil.

(** The position of the hour hand and of the minute hand at [h]:[m], in
    degrees clockwise from twelve o'clock, and the smaller of the two angles
    between them, in radians. *)
Definition hour_hand (h m : Z) : R := ((IZR (h mod 12) + IZR m / 60) * 30)%R.

Definition minute_hand (m : Z) : R := (IZR m * 6)%R.

Definition smaller_angle (h m : Z) : R :=
  let theta := (Rabs (hour_hand h m - minute_hand m) * PI / 180)%R in
  Rmin theta (2 * PI - theta).

(** The date 1970-01-01 at [h]:[m] UTC. *)
Definition clock_date (h m : Z) : Date := mkDate (Int (h * msPerHour + m * msPerMinute)).

(** A platform whose local time is UTC. *)
Definition UTC_zone : Z -> Z := fun _ => 0.

(** A platform whose local time was UTC until 2016-03-05T17:46:40Z and is
    half an hour ahead of UTC since. *)
Definition half_hour_shift_zone : Z -> Z :=
  fun t => if t <? 1457200000000 then 0 else 1800000.

(** A parser that knows one ISO 8601 string. *)
Definition epoch_parser (s : string) : Number :=
  if String.eqb s "1970-01-01T00:00:00Z" then Int 0 else NaN.

(** [Math.floor] of a finite double, as an integer. *)
Definition double_floor (x : spec_float) : Z :=
  match x with
  | S754_finite s m e =>
      let v := if s then Z.neg m else Z.pos m in
      if 0 <=? e then v * 2 ^ e else v / 2 ^ (- e)
  | _ => 0
  end.

(** Doubles that are the same datum. *)
Definition same_double (x y : spec_float) : bool :=
  match x, y with
  | S754_zero s, S754_zero s' => Bool.eqb s s'
  | S754_infinity s, S754_infinity s' => Bool.eqb s s'
  | S754_nan, S754_nan => true
  | S754_finite s m e, S754_finite s' m' e' =>
      Bool.eqb s s' && (m =? m')%positive && (e =? e')
  | _, _ => false
  end.

Definition same_result (x y : option spec_float) : bool :=
  match x, y with
  | Some a, Some b => same_double a b
  | None, None => true
  | _, _ => false
  end.

(** [0 <= x <= Math.PI] on doubles. *)
Definition within_0_PI (x : option spec_float) : bool :=
  match x with
  | Some a => SFleb (binary64_of_int 0) a && SFleb a binary64_PI
  | None => false
  end.

Definition hours_of_day : list Z := map Z.of_nat (seq 0 24).
Definition minutes_of_hour : list Z := map Z.of_nat (seq 0 60).

(** Reading a time span string back.  The value of a digit, of a string of
    digits, and of a string of the form [dd:dd:dd.ddd] in milliseconds. *)
Definition digit_value (c : ascii) : Z := Z.of_nat (nat_of_ascii c) - 48.

Fixpoint decimal_value (acc : Z) (s : string) : Z :=
  match s with
  | EmptyString => acc
  | String c s' => decimal_value (10 * acc + digit_value c) s'
  end.

Definition span_of_string (s : string) : option Z :=
  if matches HHmmss_sss s then
    Some (3600000 * decimal_value 0 (substring 0 2 s)
          + 60000 * decimal_value 0 (substring 3 2 s)
          + 1000 * decimal_value 0 (substring 6 2 s)
          + decimal_value 0 (substring 9 3 s))
  else None.

(** The smaller angle between the hands at [h]:[m], counted in half degrees. *)
Definition half_degrees (h m : Z) : Z :=
  let k := Z.abs (60 * (h mod 12) - 11 * m) in
  Z.min k (720 - k).

(** ** The platform model is the one ECMAScript describes *)

Lemma DayFromYear_succ (y : Z) : DayFromYear (y + 1) = DayFromYear y + DaysInYear y.
Proof.
  assert (quot_succ : forall x n, 0 < n ->
            (x + 1) / n = x / n + (if (x + 1) mod n =? 0 then 1 else 0)).
  { intros x n Hn. destruct (Z.eqb_spec ((x + 1) mod n) 0) as [E|E];
      pose proof (Z.div_mod (x + 1) n ltac:(lia));
      pose proof (Z.div_mod x n ltac:(lia));
      pose proof (Z.mod_pos_bound x n Hn);
      pose proof (Z.mod_pos_bound (x + 1) n Hn); [rewrite E in *|]; nia. }
  unfold DayFromYear, DaysInYear.
  replace (y + 1 - 1969) with (y - 1969 + 1) by lia.
  replace (y + 1 - 1901) with (y - 1901 + 1) by lia.
  replace (y + 1 - 1601) with (y - 1601 + 1) by lia.
  rewrite !quot_succ by lia.
  replace (y - 1969 + 1) with (y + (-492) * 4) by lia.
  replace (y - 1901 + 1) with (y + (-19) * 100) by lia.
  replace (y - 1601 + 1) with (y + (-4) * 400) by lia.
  rewrite !Z.mod_add by lia.
  pose proof (Z.mod_mod_divide y 100 4 ltac:(exists 25; lia)) as E1.
  pose proof (Z.mod_mod_divide y 400 100 ltac:(exists 4; lia)) as E2.
  destruct (Z.eqb_spec (y mod 4) 0) as [H4|H4],
           (Z.eqb_spec (y mod 100) 0) as [H100|H100],
           (Z.eqb_spec (y mod 400) 0) as [H400|H400]; cbn [negb]; try lia.
  all: exfalso; try rewrite H400 in E2; try rewrite H100 in E1;
    cbn in E1, E2; congruence.
Qed.

Lemma DayFromYear_mono (y y' : Z) : y <= y' -> DayFromYear y <= DayFromYear y'.
Proof.
  intros Hle. replace y' with (y + Z.of_nat (Z.to_nat (y' - y))) by lia.
  induction (Z.to_nat (y' - y)) as [|n IH].
  - replace (y + Z.of_nat 0) with y by lia. lia.
  - replace (y + Z.of_nat (S n)) with (y + Z.of_nat n + 1) by lia.
    rewrite DayFromYear_succ. unfold DaysInYear.
    repeat match goal with |- context [if ?b then _ else _] => destruct b end; lia.
Qed.

Lemma DayFromYear_linear (y : Z) :
  146097 * (y - 1970) - 506 <= 400 * DayFromYear y <= 146097 * (y - 1970) + 589.
Proof. unfold DayFromYear. Z.div_mod_to_equations. lia. Qed.

(** [YearFromTime t] is the year that contains [t]. *)
Lemma YearFromTime_bounds (t : Z) :
  DayFromYear (YearFromTime t) <= Day t < DayFromYear (YearFromTime t + 1).
Proof.
  unfold YearFromTime. generalize (Day t). intros d.
  set (y := 1970 + 400 * d / 146097).
  assert (Hy : 146097 * (y - 1970) <= 400 * d < 146097 * (y - 1970) + 146097)
    by (subst y; Z.div_mod_to_equations; lia).
  clearbody y.
  pose proof (DayFromYear_linear (y - 1)).
  pose proof (DayFromYear_linear (y + 1 + 1)).
  destruct (Z.ltb_spec d (DayFromYear y)).
  { replace (y - 1 + 1) with y by lia. lia. }
  destruct (Z.leb_spec (DayFromYear (y + 1)) d); lia.
Qed.

(** It is the largest year that starts at or before [t]. *)
Lemma YearFromTime_largest (t y : Z) :
  DayFromYear y <= Day t -> y <= YearFromTime t.
Proof.
  intros Hy. destruct (Z.le_gt_cases y (YearFromTime t)) as [|Hgt]; [assumption|].
  pose proof (YearFromTime_bounds t) as [_ Hlt].
  pose proof (DayFromYear_mono (YearFromTime t + 1) y ltac:(lia)). lia.
Qed.

Lemma HourFromTime_range (t : Z) : 0 <= HourFromTime t < 24.
Proof. unfold HourFromTime. apply Z.mod_pos_bound. lia. Qed.

Lemma MinFromTime_range (t : Z) : 0 <= MinFromTime t < 60.
Proof. unfold MinFromTime. apply Z.mod_pos_bound. lia. Qed.

(** ** Strings and decimal digits *)

Lemma string_length_app (a b : string) :
  String.length (a ++ b) = (String.length a + String.length b)%nat.
Proof. induction a as [|c a IH]; simpl; [reflexivity|now rewrite IH]. Qed.

Lemma string_app_assoc (a b c : string) : (a ++ b) ++ c = a ++ b ++ c.
Proof. induction a as [|x a IH]; simpl; [reflexivity|now rewrite IH]. Qed.

Lemma string_app_empty_r (a : string) : a ++ EmptyString = a.
Proof. induction a as [|x a IH]; simpl; [reflexivity|now rewrite IH]. Qed.

Lemma string_skip_app (a b : string) : string_skip (String.length a) (a ++ b) = b.
Proof. induction a as [|x a IH]; simpl; [now destruct b|exact IH]. Qed.

Lemma zeros_snoc (w : nat) : zeros w ++ "0" = String "0" (zeros w).
Proof. induction w as [|w IH]; simpl; [reflexivity|now rewrite IH]. Qed.

Lemma log2_div10 (n : Z) : 10 <= n -> Z.log2 (n / 10) < Z.log2 n.
Proof.
  intros Hn. apply Z.log2_lt_pow2; [Z.div_mod_to_equations; lia|].
  pose proof (Z.log2_spec n ltac:(lia)) as [_ Hlt].
  rewrite Z.pow_succ_r in Hlt by apply Z.log2_nonneg.
  Z.div_mod_to_equations. lia.
Qed.

Lemma digits_fuel_enough (f1 f2 : nat) (n : Z) :
  0 <= n -> Z.log2 n < Z.of_nat f1 -> Z.log2 n < Z.of_nat f2 ->
  digits_fuel f1 n = digits_fuel f2 n.
Proof.
  revert f2 n. induction f1 as [|f1 IH]; intros f2 n Hn H1 H2;
    pose proof (Z.log2_nonneg n); [lia|].
  destruct f2 as [|f2]; [lia|]. cbn [digits_fuel].
  destruct (Z.ltb_spec n 10) as [|H10]; [reflexivity|].
  pose proof (log2_div10 n H10).
  f_equal. apply IH; [Z.div_mod_to_equations; lia|lia|lia].
Qed.

(** The equation [digits] is meant to satisfy. *)
Lemma digits_unfold (n : Z) :
  0 <= n ->
  digits n =
  if n <? 10 then String (digit_char n) EmptyString
  else digits (n / 10) ++ String (digit_char (n mod 10)) EmptyString.
Proof.
  intros Hn. unfold digits at 1. cbn [digits_fuel].
  destruct (Z.ltb_spec n 10) as [|H10]; [reflexivity|].
  pose proof (log2_div10 n H10). pose proof (Z.log2_nonneg (n / 10)).
  f_equal. apply digits_fuel_enough; [Z.div_mod_to_equations; lia|lia|lia].
Qed.

Lemma digits_length_pos (n : Z) : 0 <= n -> (1 <= String.length (digits n))%nat.
Proof.
  intros Hn. rewrite digits_unfold by assumption.
  destruct (n <? 10); [simpl; lia|]. rewrite string_length_app. simpl. lia.
Qed.

Lemma digits_small (n : Z) :
  0 <= n < 10 -> digits n = String (digit_char n) EmptyString.
Proof.
  intros Hn. rewrite digits_unfold by lia.
  destruct (Z.ltb_spec n 10); [reflexivity|lia].
Qed.

Lemma digits_large (n : Z) :
  10 <= n -> digits n = digits (n / 10) ++ String (digit_char (n mod 10)) EmptyString.
Proof.
  intros Hn. rewrite digits_unfold by lia.
  destruct (Z.ltb_spec n 10); [lia|reflexivity].
Qed.

Lemma last_digits_zero (w : nat) : last_digits w 0 = zeros w.
Proof.
  induction w as [|w IH]; [reflexivity|].
  cbn [last_digits]. change (0 / 10) with 0. rewrite IH. apply zeros_snoc.
Qed.

Lemma last_digits_length (w : nat) (n : Z) : String.length (last_digits w n) = w.
Proof.
  revert n. induction w as [|w IH]; intros n; [reflexivity|].
  cbn [last_digits]. rewrite string_length_app, IH. simpl. lia.
Qed.

(** Only [n mod 10^w] matters. *)
Lemma last_digits_mod (w : nat) (n : Z) :
  last_digits w (n mod 10 ^ Z.of_nat w) = last_digits w n.
Proof.
  revert n. induction w as [|w IH]; intros n; [reflexivity|].
  cbn [last_digits].
  replace (10 ^ Z.of_nat (S w)) with (10 * 10 ^ Z.of_nat w)
    by (rewrite Nat2Z.inj_succ, Z.pow_succ_r by lia; reflexivity).
  assert (Hp : 0 < 10 ^ Z.of_nat w) by (apply Z.pow_pos_nonneg; lia).
  f_equal.
  - replace (n mod (10 * 10 ^ Z.of_nat w) / 10) with ((n / 10) mod 10 ^ Z.of_nat w);
      [apply IH|].
    rewrite Z.rem_mul_r by lia.
    rewrite (Z.mul_comm 10), Z.div_add by lia.
    rewrite (Z.div_small (n mod 10)) by (apply Z.mod_pos_bound; lia). reflexivity.
  - do 2 f_equal. rewrite Z.mul_comm.
    apply Z.mod_mod_divide. exists (10 ^ Z.of_nat w). lia.
Qed.

(** In front of the last [w] digits of [zeros w ++ digits n] there are
    exactly as many characters as [n] has digits. *)
Lemma pad_split (w : nat) (n : Z) :
  0 <= n ->
  exists p, zeros w ++ digits n = p ++ last_digits w n
            /\ String.length p = String.length (digits n).
Proof.
  revert n. induction w as [|w IH]; intros n Hn.
  - exists (digits n). simpl. now rewrite string_app_empty_r.
  - destruct (Z.lt_ge_cases n 10) as [Hlt|Hge].
    + exists "0". rewrite digits_small by lia. cbn [last_digits].
      rewrite Z.div_small, Z.mod_small, last_digits_zero by lia.
      split; reflexivity.
    + destruct (IH (n / 10) ltac:(Z.div_mod_to_equations; lia)) as (p & Hp & Hlen).
      exists (String "0" p). rewrite digits_large by lia. cbn [last_digits zeros].
      split.
      * change (String "0" (zeros w) ++ ?x) with (String "0" (zeros w ++ x)).
        rewrite <- string_app_assoc, Hp, string_app_assoc. reflexivity.
      * rewrite string_length_app. simpl. lia.
Qed.

(** The padding idiom of the source: [(zeros + n).slice(n.toString().length)]
    keeps the last [w] characters. *)
Lemma slice_pad (w : nat) (n : Z) :
  0 <= n ->
  String_slice (zeros w ++ digits n) (String_length (digits n)) = last_digits w n.
Proof.
  intros Hn. destruct (pad_split w n Hn) as (p & Hp & Hlen).
  unfold String_slice, String_length. rewrite Hp, <- Hlen.
  destruct (Z.ltb_spec (Z.of_nat (String.length p)) 0); [lia|].
  rewrite string_length_app, Z.min_l, Nat2Z.id by lia.
  apply string_skip_app.
Qed.

Lemma field_render (w : nat) (x : Z) :
  0 <= x ->
  (if Number_gt (Int x) (Int 0) then
     String_slice (zeros w ++ Number_toString (Int x))
       (String_length (Number_toString (Int x)))
   else zeros w) = last_digits w x.
Proof.
  intros Hx. cbn [Number_gt Number_toString].
  destruct (Z.ltb_spec x 0); [lia|].
  destruct (Z.gtb_spec x 0).
  - now apply slice_pad.
  - replace x with 0 by lia. symmetry. apply last_digits_zero.
Qed.

Lemma Number_rem_nonneg (x : Z) (p : positive) :
  0 <= x -> Number_rem (Int x) (Int (Z.pos p)) = Int (x mod Z.pos p).
Proof. intros Hx. cbn. now rewrite Z.rem_mod_nonneg by lia. Qed.

Lemma zero_pad_2 (x : Z) : 0 <= x < 100 -> zero_pad 2 x = last_digits 2 x.
Proof.
  intros Hx. unfold zero_pad. cbn [last_digits]. cbn [append].
  destruct (Z.lt_ge_cases x 10).
  - rewrite digits_small, Z.div_small, (Z.mod_small x) by lia. reflexivity.
  - rewrite digits_large, digits_small by (Z.div_mod_to_equations; lia).
    rewrite (Z.mod_small (x / 10)) by (Z.div_mod_to_equations; lia). reflexivity.
Qed.

Lemma zero_pad_3 (x : Z) : 0 <= x < 1000 -> zero_pad 3 x = last_digits 3 x.
Proof.
  intros Hx. unfold zero_pad. cbn [last_digits]. cbn [append].
  destruct (Z.lt_ge_cases x 10); [|destruct (Z.lt_ge_cases x 100)].
  - rewrite digits_small, (Z.div_small x), (Z.mod_small x) by lia. reflexivity.
  - rewrite digits_large, digits_small by (Z.div_mod_to_equations; lia).
    rewrite (Z.div_small (x / 10)), (Z.mod_small (x / 10))
      by (Z.div_mod_to_equations; lia).
    reflexivity.
  - rewrite (digits_large x), (digits_large (x / 10)), digits_small
      by (Z.div_mod_to_equations; lia).
    rewrite (Z.mod_small (x / 10 / 10)) by (Z.div_mod_to_equations; lia).
    reflexivity.
Qed.

Lemma digit_char_is_digit (x : Z) : is_digit (digit_char (x mod 10)) = true.
Proof.
  pose proof (Z.mod_pos_bound x 10 ltac:(lia)) as Hr.
  assert (H : x mod 10 = 0 \/ x mod 10 = 1 \/ x mod 10 = 2 \/ x mod 10 = 3 \/
              x mod 10 = 4 \/ x mod 10 = 5 \/ x mod 10 = 6 \/ x mod 10 = 7 \/
              x mod 10 = 8 \/ x mod 10 = 9) by lia.
  repeat destruct H as [H|H]; rewrite H; reflexivity.
Qed.

Lemma is_digit_not_colon (c : ascii) : is_digit c = true -> Ascii.eqb c ":" = false.
Proof.
  intros H. destruct (Ascii.eqb_spec c ":") as [->|]; [discriminate H|reflexivity].
Qed.

(** ** The subtraction of doubles *)

(** Up to 2^53 the difference is exact. *)
Lemma round_to_double_exact (z : Z) : Z.abs z <= 2 ^ 53 -> round_to_double z = z.
Proof.
  intros Hz. unfold round_to_double.
  destruct (Z.leb_spec (Z.log2 (Z.abs z) - 52) 0) as [|He]; [reflexivity|].
  assert (Hpos : 0 < Z.abs z).
  { destruct (Z.eq_dec (Z.abs z) 0) as [E0|]; [|lia].
    rewrite E0 in He. cbn in He. lia. }
  assert (Ha : 2 ^ 53 <= Z.abs z) by (apply Z.log2_le_pow2; lia).
  assert (E : Z.abs z = 2 ^ 53) by lia.
  rewrite E. change (Z.log2 (2 ^ 53) - 52) with 1.
  change (2 ^ 53 mod 2 ^ 1) with 0. change (2 * 0 <? 2 ^ 1) with true.
  cbv iota. change (2 ^ 53 / 2 ^ 1 * 2 ^ 1) with (2 ^ 53).
  rewrite <- E. rewrite Z.mul_comm. apply Z.abs_sgn.
Qed.

(** Rounding is symmetric about zero. *)
Lemma round_to_double_opp (z : Z) : round_to_double (- z) = - round_to_double z.
Proof.
  unfold round_to_double. rewrite Z.abs_opp, Z.sgn_opp.
  destruct (Z.log2 (Z.abs z) - 52 <=? 0); [reflexivity|]. lia.
Qed.

(** [round_to_double] against the subtraction of IEEE 754 binary64, on the
    two dates at the ends of the range of time values, on dates 2^53 + 1 and
    2^53 + 3 ms apart, on nearer ones, and on 2000 more pairs of time values
    spread over the range. *)
Lemma round_to_double_is_binary64 :
  forallb (fun xy =>
    same_double
      (SFsub prec emax (binary64_of_int (fst xy)) (binary64_of_int (snd xy)))
      (binary64_of_int (round_to_double (fst xy - snd xy))))
    ((8639999999999999, -8640000000000000)
     :: (-8640000000000000, 8639999999999999)
     :: (8640000000000000, -8640000000000000)
     :: (4503599627370496, -4503599627370497)
     :: (4503599627370498, -4503599627370497)
     :: (4503599627370496, -4503599627370496)
     :: (8640000000000000, -367199254740993)
     :: (8640000000000000, -367199254740995)
     :: (8640000000000000, -5000000000000001)
     :: (949418410453, 949399200000)
     :: (949399200000, 949759200000)
     :: (0, 0)
     :: map (fun i => (8640000000000000 - Z.of_nat i * 829460329157,
                       Z.of_nat i * 8640000000000 - 8639999999999999))
            (seq 0 2000)) = true.
Proof. vm_compute. reflexivity. Qed.

(** The floored quotient by 3600000 against binary64, at differences one or
    two milliseconds short of a whole number of hours, where the quotient of
    doubles is nearest to the next integer: 3000 odd differences up to 2^53
    and 3000 even ones up to the largest difference of two time values. *)
Lemma floor_div_is_binary64 :
  forallb (fun d =>
    double_floor (SFdiv prec emax (binary64_of_int d) (binary64_of_int 3600000))
    =? d / 3600000)
    (map (fun i => 3600000 * (2501999792 - Z.of_nat i) - 1) (seq 0 3000)
     ++ map (fun i => 3600000 * (4800000000 - Z.of_nat i) - 2) (seq 0 3000)
     ++ map (fun i => 3600000 * (2 ^ 32 + 1 + Z.of_nat i) - 2) (seq 0 3000))%list
  = true.
Proof. vm_compute. reflexivity. Qed.

(** ** [timeSpanToString] *)

(** What the function returns on two valid dates, field by field, from the
    difference that the subtraction of doubles yields. *)
Lemma timeSpanToString_render_double (t1 t2 : Z) :
  let diff := Z.abs (round_to_double (t2 - t1)) in
  timeSpanToString (mkDate (Int t1)) (mkDate (Int t2)) =
  last_digits 2 (diff / 3600000) ++ ":" ++
  last_digits 2 (diff mod 3600000 / 60000) ++ ":" ++
  last_digits 2 (diff mod 60000 / 1000) ++ "." ++
  last_digits 3 (diff mod 1000).
Proof.
  intros diff. unfold timeSpanToString, getTime. cbn [DateValue].
  change (Math_abs (Number_sub (Int t2) (Int t1))) with (Int diff).
  assert (Hd : 0 <= diff) by (subst diff; lia). clearbody diff.
  rewrite (Number_rem_nonneg diff) by lia.
  rewrite (Number_rem_nonneg (diff mod 3600000)) by (apply Z.mod_pos_bound; lia).
  rewrite (Number_rem_nonneg (diff mod 3600000 mod 60000))
    by (apply Z.mod_pos_bound; lia).
  cbn [Math_floor_div].
  rewrite (Z.mod_mod_divide diff 3600000 60000) by (exists 60; lia).
  rewrite (Z.mod_mod_divide diff 60000 1000) by (exists 60; lia).
  change "000" with (zeros 3). change "00" with (zeros 2).
  rewrite (field_render 3 (diff mod 1000)) by (apply Z.mod_pos_bound; lia).
  rewrite (field_render 2 (diff mod 60000 / 1000))
    by (Z.div_mod_to_equations; lia).
  rewrite (field_render 2 (diff mod 3600000 / 60000))
    by (Z.div_mod_to_equations; lia).
  rewrite (field_render 2 (diff / 3600000)) by (Z.div_mod_to_equations; lia).
  reflexivity.
Qed.

(** The same from the exact difference, for dates at most 2^53 ms apart. *)
Lemma timeSpanToString_render (t1 t2 : Z) :
  Z.abs (t2 - t1) <= 2 ^ 53 ->
  let diff := Z.abs (t2 - t1) in
  timeSpanToString (mkDate (Int t1)) (mkDate (Int t2)) =
  last_digits 2 (diff / 3600000) ++ ":" ++
  last_digits 2 (diff mod 3600000 / 60000) ++ ":" ++
  last_digits 2 (diff mod 60000 / 1000) ++ "." ++
  last_digits 3 (diff mod 1000).
Proof.
  intros Hsafe. rewrite timeSpanToString_render_double.
  rewrite round_to_double_exact by exact Hsafe. reflexivity.
Qed.

(** An Invalid Date on either side makes every comparison fail. *)
Lemma timeSpanToString_invalid (startDate endDate : Date) :
  getTime startDate = NaN \/ getTime endDate = NaN ->
  timeSpanToString startDate endDate = "00:00:00.000".
Proof.
  destruct startDate as [[|t1]], endDate as [[|t2]]; cbn [getTime DateValue];
    intros [H|H]; try discriminate H; reflexivity.
Qed.

Lemma render_shape (h m s ms : Z) :
  let str := last_digits 2 h ++ ":" ++ last_digits 2 m ++ ":" ++
             last_digits 2 s ++ "." ++ last_digits 3 ms in
  String.length str = 12%nat /\ matches HHmmss_sss str = true
  /\ hour_field str = last_digits 2 h.
Proof.
  cbn [last_digits append]. repeat split.
  - cbn [matches HHmmss_sss]. rewrite !digit_char_is_digit. reflexivity.
  - cbn [hour_field].
    rewrite !is_digit_not_colon by apply digit_char_is_digit. reflexivity.
Qed.

Lemma last_digits_2_mod (h : Z) :
  0 <= h -> last_digits 2 h = zero_pad 2 (h mod 100).
Proof.
  intros Hh. rewrite zero_pad_2 by (apply Z.mod_pos_bound; lia).
  symmetry. exact (last_digits_mod 2 h).
Qed.

Lemma digits_length_3 (n : Z) : 100 <= n -> (3 <= String.length (digits n))%nat.
Proof.
  intros Hn. rewrite (digits_large n), (digits_large (n / 10))
    by (Z.div_mod_to_equations; lia).
  pose proof (digits_length_pos (n / 10 / 10) ltac:(Z.div_mod_to_equations; lia)).
  rewrite !string_length_app. simpl. lia.
Qed.

Lemma abs_sub_sym (a b : Number) :
  Math_abs (Number_sub a b) = Math_abs (Number_sub b a).
Proof.
  destruct a as [|x], b as [|y]; cbn [Number_sub Math_abs]; try reflexivity.
  f_equal. replace (y - x) with (- (x - y)) by lia.
  rewrite round_to_double_opp. lia.
Qed.

(** C4. [timeSpanToString] is symmetric in its two arguments, and a span
    renders the same whether it runs forwards or backwards from a date. *)
Theorem timeSpanToString_symmetric :
  forall a b : Date,
    timeSpanToString a b = timeSpanToString b a
    /\ forall t d : Z,
         timeSpanToString (mkDate (Int t)) (mkDate (Int (t + d))) =
         timeSpanToString (mkDate (Int t)) (mkDate (Int (t - d))).
Proof.
  intros a b. split.
  - unfold timeSpanToString. rewrite (abs_sub_sym (getTime b) (getTime a)).
    reflexivity.
  - intros t d. rewrite !timeSpanToString_render_double.
    replace (t + d - t) with d by lia.
    replace (t - d - t) with (- d) by lia.
    rewrite round_to_double_opp, Z.abs_opp. reflexivity.
Qed.

(** The shape of the result on two valid dates. *)
Lemma timeSpanToString_valid_shape (t1 t2 : Z) :
  let s := timeSpanToString (mkDate (Int t1)) (mkDate (Int t2)) in
  String.length s = 12%nat
  /\ matches HHmmss_sss s = true
  /\ String.length (hour_field s) = 2%nat.
Proof.
  cbv zeta. rewrite timeSpanToString_render_double. cbv zeta.
  set (diff := Z.abs (round_to_double (t2 - t1))).
  destruct (render_shape (diff / 3600000) (diff mod 3600000 / 60000)
              (diff mod 60000 / 1000) (diff mod 1000)) as (Hlen & Hmatch & Hfield).
  split; [exact Hlen|]. split; [exact Hmatch|]. rewrite Hfield.
  apply last_digits_length.
Qed.

(** The hour field on two valid dates at most 2^53 ms apart. *)
Lemma timeSpanToString_hour_field (t1 t2 : Z) :
  Z.abs (t2 - t1) <= 2 ^ 53 ->
  hour_field (timeSpanToString (mkDate (Int t1)) (mkDate (Int t2)))
  = zero_pad 2 ((Z.abs (t2 - t1) / 3600000) mod 100).
Proof.
  intros Hsafe. rewrite timeSpanToString_render by exact Hsafe. cbv zeta.
  destruct (render_shape (Z.abs (t2 - t1) / 3600000)
              (Z.abs (t2 - t1) mod 3600000 / 60000)
              (Z.abs (t2 - t1) mod 60000 / 1000)
              (Z.abs (t2 - t1) mod 1000)) as (_ & _ & Hfield).
  rewrite Hfield. apply last_digits_2_mod. Z.div_mod_to_equations. lia.
Qed.


(** C1 (code bug).  What the code does instead of letting the hour field
    grow: when two valid dates are at least 100 hours and at most 2^53 ms
    apart, the hour field is two digits wide, holds the hour count modulo
    100 and is not the decimal hour count. *)
Theorem timeSpanToString_hours_truncated :
  forall (startDate endDate : Date) (t1 t2 : Z),
    getTime startDate = Int t1 -> getTime endDate = Int t2 ->
    360000000 <= Z.abs (t2 - t1) -> Z.abs (t2 - t1) <= 2 ^ 53 ->
    let hours := Z.abs (t2 - t1) / 3600000 in
    let s := timeSpanToString startDate endDate in
    hour_field s = zero_pad 2 (hours mod 100)
    /\ String.length (hour_field s) = 2%nat
    /\ hour_field s <> digits hours.
Proof.
  intros [v1] [v2] t1 t2 H1 H2 Hdiff Hsafe hours s. cbn in H1, H2. subst v1 v2.
  destruct (timeSpanToString_valid_shape t1 t2) as (_ & _ & Hlen).
  pose proof (timeSpanToString_hour_field t1 t2 Hsafe) as Hfield.
  fold s in Hlen, Hfield. split; [exact Hfield|]. split; [exact Hlen|].
  intros E. rewrite E in Hlen.
  pose proof (digits_length_3 hours ltac:(subst hours; Z.div_mod_to_equations; lia)).
  lia.
Qed.

(** C3 (code bug).  What the code does: on two valid dates less than 100
    hours apart the four fields are the hours, the minutes, the seconds and
    the milliseconds of the absolute difference, each zero-padded, as the
    claim says, the five examples included; from 100 hours on (and up to
    2^53 ms, where the subtraction is exact) the hour field holds the hour
    count modulo 100 instead. *)
Theorem timeSpanToString_fields :
  forall (startDate endDate : Date) (t1 t2 : Z),
    getTime startDate = Int t1 -> getTime endDate = Int t2 ->
    let diff := Z.abs (t2 - t1) in
    let hours := diff / 3600000 in
    let minutes := diff mod 3600000 / 60000 in
    let seconds := diff mod 60000 / 1000 in
    let milliseconds := diff mod 1000 in
    let s := timeSpanToString startDate endDate in
    (diff < 360000000 ->
     s = zero_pad 2 hours ++ ":" ++ zero_pad 2 minutes ++ ":" ++
         zero_pad 2 seconds ++ "." ++ zero_pad 3 milliseconds)
    /\ (diff <= 2 ^ 53 ->
        s = zero_pad 2 (hours mod 100) ++ ":" ++ zero_pad 2 minutes ++ ":" ++
            zero_pad 2 seconds ++ "." ++ zero_pad 3 milliseconds)
    /\ (diff = 3600000 -> s = "01:00:00.000")
    /\ (diff = 1800000 -> s = "00:30:00.000")
    /\ (diff = 20000 -> s = "00:00:20.000")
    /\ (diff = 250 -> s = "00:00:00.250")
    /\ (diff = 19210453 -> s = "05:20:10.453").
Proof.
  intros [v1] [v2] t1 t2 H1 H2. cbn in H1, H2. subst v1 v2.
  intros diff hours minutes seconds milliseconds s.
  assert (Hd : 0 <= diff) by (subst diff; lia).
  assert (Hs : diff <= 2 ^ 53 ->
               s = zero_pad 2 (hours mod 100) ++ ":" ++ zero_pad 2 minutes ++ ":" ++
                   zero_pad 2 seconds ++ "." ++ zero_pad 3 milliseconds).
  { intros Hsafe. subst s. rewrite timeSpanToString_render by exact Hsafe.
    fold diff. fold hours minutes seconds milliseconds.
    rewrite (last_digits_2_mod hours) by (subst hours; Z.div_mod_to_equations; lia).
    rewrite (zero_pad_2 minutes) by (subst minutes; Z.div_mod_to_equations; lia).
    rewrite (zero_pad_2 seconds) by (subst seconds; Z.div_mod_to_equations; lia).
    rewrite (zero_pad_3 milliseconds) by (subst milliseconds; apply Z.mod_pos_bound; lia).
    reflexivity. }
  split.
  { intros Hlt. rewrite Hs by lia. rewrite (Z.mod_small hours); [reflexivity|].
    subst hours. Z.div_mod_to_equations. lia. }
  split; [exact Hs|].
  subst hours minutes seconds milliseconds. clearbody diff s.
  repeat split; intros E; rewrite Hs by (rewrite E; lia); rewrite E; reflexivity.
Qed.

Section Properties.

Variable LocalTZA : Z -> Z.
Variable Date_parse : string -> Number.

(** ** The parsers *)

(** C6. On every string both parsers return normally, with the same date;
    a string the platform cannot parse gives the Invalid Date, which the
    validity query tells apart from every date that holds a time value; a
    string it can parse gives a valid date holding the parsed time value. *)
Theorem parsers_never_throw :
  forall s : string,
  exists d : Date,
    parseDataFromRfc2822 Date_parse (VString s) = Normal d
    /\ parseDataFromIso8601 Date_parse (VString s) = Normal d
    /\ (Date_parse s = NaN ->
        isValidDate d = false
        /\ forall t : Z, isValidDate (mkDate (Int t)) = true /\ d <> mkDate (Int t))
    /\ (forall t : Z, Date_parse s = Int t -> Z.abs t <= maxTimeValue ->
        isValidDate d = true /\ getTime d = Int t).
Proof.
  intros s. exists (mkDate (TimeClip (Date_parse s))).
  split; [reflexivity|]. split; [reflexivity|]. split.
  - intros ->. split; [reflexivity|]. intros t. split; [reflexivity|discriminate].
  - intros t -> Ht. cbn [TimeClip].
    destruct (Z.gtb_spec (Z.abs t) maxTimeValue); [lia|]. split; reflexivity.
Qed.

(** Strings are what keeps the parsers from throwing: a symbol makes both
    throw. *)
Lemma parsers_throw_on_symbol (description : string) :
  parseDataFromRfc2822 Date_parse (VSymbol description) = Throw "TypeError"
  /\ parseDataFromIso8601 Date_parse (VSymbol description) = Throw "TypeError".
Proof. split; reflexivity. Qed.

(** A date made by [new Date] holds [NaN] or a time value within 100 000 000
    days of the epoch. *)
Lemma new_Date_time_value (value : Value) (d : Date) (t : Z) :
  new_Date Date_parse value = Normal d -> getTime d = Int t ->
  Z.abs t <= maxTimeValue.
Proof.
  assert (Hclip : forall n, TimeClip n = Int t -> Z.abs t <= maxTimeValue).
  { intros [|x]; cbn [TimeClip]; [discriminate|].
    destruct (Z.gtb_spec (Z.abs x) maxTimeValue); [discriminate|].
    intros E. injection E as <-. assumption. }
  destruct value as [| |b|n|s|?|?]; intros E; try discriminate E;
    injection E as <-; intros Ht.
  - discriminate Ht.
  - exact (Hclip (Int 0) Ht).
  - exact (Hclip (Int (if b then 1 else 0)) Ht).
  - exact (Hclip n Ht).
  - exact (Hclip (Date_parse s) Ht).
Qed.

(** ** [isLeapYear] *)

(** C2. [isLeapYear] follows the Gregorian rule on the year of its date. *)
Theorem isLeapYear_correct :
  forall (date : Date) (y : Z),
    getFullYear LocalTZA date = Int y ->
    (isLeapYear LocalTZA date = true <->
     (y mod 4 = 0 /\ y mod 100 <> 0) \/ y mod 400 = 0)
    /\ (y = 1900 -> isLeapYear LocalTZA date = false)
    /\ (y = 2000 -> isLeapYear LocalTZA date = true)
    /\ (y = 2001 -> isLeapYear LocalTZA date = false)
    /\ (y = 2012 -> isLeapYear LocalTZA date = true)
    /\ (y = 2015 -> isLeapYear LocalTZA date = false).
Proof.
  intros date y Hy. unfold isLeapYear. rewrite Hy.
  split; [|repeat split; intros ->; reflexivity].
  unfold Number_neq. cbn [Number_rem Number_eq Z.eqb].
  pose proof (Z.rem_mod_eq_0 y 4 ltac:(lia)).
  pose proof (Z.rem_mod_eq_0 y 100 ltac:(lia)).
  pose proof (Z.rem_mod_eq_0 y 400 ltac:(lia)).
  destruct (Z.eqb_spec (Z.rem y 100) 0), (Z.eqb_spec (Z.rem y 4) 0),
    (Z.eqb_spec (Z.rem y 400) 0); cbn [negb orb andb]; intuition congruence.
Qed.

(** X15. On an Invalid Date the year is [NaN] and the answer is [false]. *)
Lemma isLeapYear_invalid (date : Date) :
  getTime date = NaN -> isLeapYear LocalTZA date = false.
Proof.
  destruct date as [[|t]]; cbn [getTime DateValue]; [reflexivity|discriminate].
Qed.

End Properties.

(** ** [angleBetweenClockHands] *)

Lemma in_hours_of_day (h : Z) : 0 <= h < 24 -> In h hours_of_day.
Proof.
  intros Hh. unfold hours_of_day. rewrite <- (Z2Nat.id h) by lia.
  apply in_map, in_seq. lia.
Qed.

Lemma in_minutes_of_hour (m : Z) : 0 <= m < 60 -> In m minutes_of_hour.
Proof.
  intros Hm. unfold minutes_of_hour. rewrite <- (Z2Nat.id m) by lia.
  apply in_map, in_seq. lia.
Qed.

Lemma same_double_eq (x y : spec_float) : same_double x y = true -> x = y.
Proof.
  destruct x as [s|s| |s m e], y as [s'|s'| |s' m' e']; cbn; try discriminate;
    try reflexivity.
  - intros H. apply Bool.eqb_prop in H. now subst.
  - intros H. apply Bool.eqb_prop in H. now subst.
  - intros H. apply andb_prop in H as [H He]. apply andb_prop in H as [Hs Hm].
    apply Bool.eqb_prop in Hs. apply Pos.eqb_eq in Hm. apply Z.eqb_eq in He.
    now subst.
Qed.

Lemma same_result_eq (x y : option spec_float) : same_result x y = true -> x = y.
Proof.
  destruct x, y; cbn; try discriminate; try reflexivity.
  intros H. f_equal. now apply same_double_eq.
Qed.

Lemma clock_date_hour (h m : Z) :
  0 <= h < 24 -> 0 <= m < 60 -> getUTCHours (clock_date h m) = Int h.
Proof.
  intros Hh Hm. unfold getUTCHours, clock_date, HourFromTime, msPerHour, msPerMinute.
  cbn [DateValue]. f_equal. Z.div_mod_to_equations. lia.
Qed.

Lemma clock_date_minute (h m : Z) :
  0 <= h < 24 -> 0 <= m < 60 -> getMinutes UTC_zone (clock_date h m) = Int m.
Proof.
  intros Hh Hm.
  unfold getMinutes, clock_date, MinFromTime, LocalTime, UTC_zone, msPerHour, msPerMinute.
  cbn [DateValue]. f_equal. Z.div_mod_to_equations. lia.
Qed.

(** The result is a function of the UTC hour and the local minute: it is the
    one for the date 1970-01-01 at that time, on a platform in UTC. *)
Lemma angle_at_clock_date {F : Type} `{Arithmetic F} (LocalTZA : Z -> Z)
      (date : Date) (h m : Z) :
  getUTCHours date = Int h -> getMinutes LocalTZA date = Int m ->
  0 <= h < 24 -> 0 <= m < 60 ->
  angleBetweenClockHands LocalTZA date =
  angleBetweenClockHands UTC_zone (clock_date h m).
Proof.
  intros Hh Hm Hhr Hmr. unfold angleBetweenClockHands.
  rewrite Hh, Hm, clock_date_hour, clock_date_minute by assumption. reflexivity.
Qed.

Lemma Rabs_radians (d : R) : (Rabs (d * PI / 180) = Rabs d * PI / 180)%R.
Proof.
  pose proof PI_RGT_0. unfold Rdiv. rewrite !Rabs_mult.
  rewrite (Rabs_pos_eq PI) by lra. rewrite (Rabs_pos_eq (/ 180)) by lra.
  reflexivity.
Qed.

Lemma Rmin_radians (a : R) :
  (Rmin (a * PI / 180) (2 * PI - a * PI / 180) = Rmin a (360 - a) * PI / 180)%R.
Proof.
  pose proof PI_RGT_0. unfold Rmin.
  destruct (Rle_dec a (360 - a)), (Rle_dec (a * PI / 180) (2 * PI - a * PI / 180));
    try lra; exfalso; nra.
Qed.

Lemma radians_range (d : R) : (0 <= d <= 180 -> 0 <= d * PI / 180 <= PI)%R.
Proof. pose proof PI_RGT_0. intros Hd. split; nra. Qed.

(** In exact arithmetic the result is the smaller angle between the hands,
    which is at most 180 degrees. *)
Lemma angle_exact (LocalTZA : Z -> Z) (date : Date) (h m : Z) :
  getUTCHours date = Int h -> getMinutes LocalTZA date = Int m ->
  0 <= h < 24 -> 0 <= m < 60 ->
  angleBetweenClockHands (F := R) LocalTZA date = Some (smaller_angle h m)
  /\ (0 <= smaller_angle h m <= PI)%R.
Proof.
  intros Hh Hm Hhr Hmr. unfold angleBetweenClockHands. rewrite Hh, Hm.
  unfold smaller_angle, hour_hand, minute_hand.
  cbn [of_int add sub mul div fabs gt Math_PI Exact].
  rewrite Rabs_radians, Rmin_radians.
  assert (Hu : (0 <= IZR m <= 59)%R)
    by (split; apply IZR_le; lia).
  generalize dependent (IZR m). intros u Hu.
  pose proof PI_RGT_0 as Hpi.
  assert (Hc : h = 0 \/ h = 1 \/ h = 2 \/ h = 3 \/ h = 4 \/ h = 5 \/ h = 6 \/ h = 7
               \/ h = 8 \/ h = 9 \/ h = 10 \/ h = 11 \/ h = 12 \/ h = 13 \/ h = 14
               \/ h = 15 \/ h = 16 \/ h = 17 \/ h = 18 \/ h = 19 \/ h = 20
               \/ h = 21 \/ h = 22 \/ h = 23) by lia.
  repeat destruct Hc as [Hc|Hc]; subst h;
    repeat match goal with
           | |- context [IZR (if ?b then ?x else ?y)] =>
               let k := eval vm_compute in (if b then x else y) in
               change (if b then x else y) with k
           | |- context [IZR (?x mod 12)] =>
               let k := eval vm_compute in (x mod 12) in
               change (x mod 12) with k
           end;
    match goal with
    | |- context [Rgt_dec ?a ?b] => destruct (Rgt_dec a b) as [Hgt|Hgt]
    end;
    unfold Rmin, Rabs in *;
    repeat match goal with
           | |- context [Rcase_abs ?a] => destruct (Rcase_abs a)
           | H : context [Rcase_abs ?a] |- _ => destruct (Rcase_abs a)
           | |- context [Rle_dec ?a ?b] => destruct (Rle_dec a b)
           end;
    try (exfalso; lra);
    (split; [do 3 f_equal; lra | apply radians_range; lra]).
Qed.

(** The same facts in binary64, by running the function on the 1440 times
    of the day. *)
Lemma binary64_all_within_0_PI :
  forallb (fun h =>
    forallb (fun m =>
      within_0_PI
        (angleBetweenClockHands (F := spec_float) UTC_zone (clock_date h m)))
      minutes_of_hour) hours_of_day = true.
Proof. vm_compute. reflexivity. Qed.

Lemma binary64_all_plus_12 :
  forallb (fun h =>
    forallb (fun m =>
      same_result
        (angleBetweenClockHands (F := spec_float) UTC_zone (clock_date (h + 12) m))
        (angleBetweenClockHands (F := spec_float) UTC_zone (clock_date h m)))
      minutes_of_hour) hours_of_day = true.
Proof. vm_compute. reflexivity. Qed.

Lemma angle_binary64_range (LocalTZA : Z -> Z) (date : Date) (h m : Z) :
  getUTCHours date = Int h -> getMinutes LocalTZA date = Int m ->
  0 <= h < 24 -> 0 <= m < 60 ->
  within_0_PI (angleBetweenClockHands (F := spec_float) LocalTZA date) = true.
Proof.
  intros Hh Hm Hhr Hmr. rewrite (angle_at_clock_date LocalTZA date h m) by assumption.
  pose proof binary64_all_within_0_PI as Hall.
  rewrite forallb_forall in Hall.
  specialize (Hall h (in_hours_of_day h Hhr)). cbv beta in Hall.
  rewrite forallb_forall in Hall.
  exact (Hall m (in_minutes_of_hour m Hmr)).
Qed.

Lemma angle_binary64_plus_12 (h m : Z) :
  0 <= h < 12 -> 0 <= m < 60 ->
  angleBetweenClockHands (F := spec_float) UTC_zone (clock_date (h + 12) m) =
  angleBetweenClockHands (F := spec_float) UTC_zone (clock_date h m).
Proof.
  intros Hhr Hmr. apply same_result_eq.
  pose proof binary64_all_plus_12 as Hall.
  rewrite forallb_forall in Hall.
  specialize (Hall h (in_hours_of_day h ltac:(lia))). cbv beta in Hall.
  rewrite forallb_forall in Hall.
  exact (Hall m (in_minutes_of_hour m Hmr)).
Qed.

Lemma smaller_angle_plus_12 (h m : Z) : smaller_angle (h + 12) m = smaller_angle h m.
Proof.
  unfold smaller_angle, hour_hand.
  replace ((h + 12) mod 12) with (h mod 12); [reflexivity|].
  replace (h + 12) with (h + 1 * 12) by lia. now rewrite Z.mod_add by lia.
Qed.

Lemma smaller_angle_values :
  smaller_angle 0 0 = 0%R /\ smaller_angle 3 0 = (PI / 2)%R
  /\ smaller_angle 18 0 = PI /\ smaller_angle 21 0 = (PI / 2)%R.
Proof.
  pose proof PI_RGT_0. unfold smaller_angle, hour_hand, minute_hand.
  change (0 mod 12) with 0. change (3 mod 12) with 3.
  change (18 mod 12) with 6. change (21 mod 12) with 9.
  repeat split; unfold Rmin, Rabs;
    repeat match goal with
           | |- context [Rcase_abs ?a] => destruct (Rcase_abs a)
           | |- context [Rle_dec ?a ?b] => destruct (Rle_dec a b)
           end; lra.
Qed.

Section ClockAngle.

Variable LocalTZA : Z -> Z.

(** C5. On a valid date the result lies in [0, PI] and is the smaller of the
    two angles between the hands; the double that binary64 arithmetic yields
    lies between 0 and [Math.PI] as well. *)
Theorem angleBetweenClockHands_range :
  forall (date : Date) (h m : Z),
    getUTCHours date = Int h -> getMinutes LocalTZA date = Int m ->
    0 <= h <= 23 -> 0 <= m <= 59 ->
    (exists a : R,
        angleBetweenClockHands (F := R) LocalTZA date = Some a
        /\ (0 <= a <= PI)%R
        /\ a = smaller_angle h m)
    /\ within_0_PI (angleBetweenClockHands (F := spec_float) LocalTZA date) = true.
Proof.
  intros date h m Hh Hm Hhr Hmr. split.
  - destruct (angle_exact LocalTZA date h m Hh Hm ltac:(lia) ltac:(lia)) as [E R].
    exists (smaller_angle h m). repeat split; try assumption; apply R.
  - apply (angle_binary64_range LocalTZA date h m); try assumption; lia.
Qed.

(** C7. The result depends on the date through its UTC hour and its local
    minute only, whatever the arithmetic. *)
Theorem angleBetweenClockHands_reads_hour_and_minute :
  forall (F : Type) (A : Arithmetic F) (date1 date2 : Date),
    getUTCHours date1 = getUTCHours date2 ->
    getMinutes LocalTZA date1 = getMinutes LocalTZA date2 ->
    angleBetweenClockHands LocalTZA date1 = angleBetweenClockHands LocalTZA date2.
Proof.
  intros F A date1 date2 Hh Hm. unfold angleBetweenClockHands.
  rewrite Hh, Hm. reflexivity.
Qed.

(** C8. At 0:00, 3:00, 18:00 and 21:00 the result is 0, PI/2, PI and PI/2,
    in exact arithmetic and, as doubles, in binary64. *)
Theorem angleBetweenClockHands_examples :
  forall (date : Date) (h : Z),
    getUTCHours date = Int h -> getMinutes LocalTZA date = Int 0 ->
    (h = 0 ->
     angleBetweenClockHands (F := R) LocalTZA date = Some 0%R
     /\ angleBetweenClockHands (F := spec_float) LocalTZA date
        = Some (binary64_of_int 0))
    /\ (h = 3 ->
        angleBetweenClockHands (F := R) LocalTZA date = Some (PI / 2)%R
        /\ angleBetweenClockHands (F := spec_float) LocalTZA date
           = Some (SFdiv prec emax binary64_PI (binary64_of_int 2)))
    /\ (h = 18 ->
        angleBetweenClockHands (F := R) LocalTZA date = Some PI
        /\ angleBetweenClockHands (F := spec_float) LocalTZA date
           = Some binary64_PI)
    /\ (h = 21 ->
        angleBetweenClockHands (F := R) LocalTZA date = Some (PI / 2)%R
        /\ angleBetweenClockHands (F := spec_float) LocalTZA date
           = Some (SFdiv prec emax binary64_PI (binary64_of_int 2))).
Proof.
  intros date h Hh Hm.
  destruct smaller_angle_values as (V0 & V3 & V18 & V21).
  repeat split; subst h.
  all: try (rewrite (angle_at_clock_date LocalTZA date _ 0 Hh Hm) by lia;
            vm_compute; reflexivity).
  all: destruct (angle_exact LocalTZA date _ 0 Hh Hm ltac:(lia) ltac:(lia)) as [E _];
    rewrite E; f_equal; assumption.
Qed.

(** C10. Adding 12 to a clock hour below 12 leaves the result unchanged, in
    exact arithmetic and in binary64; in particular hour 12 gives what
    hour 0 gives, at every minute. *)
Theorem angleBetweenClockHands_plus_12 :
  forall (date date' : Date) (h m : Z),
    0 <= h <= 11 -> 0 <= m <= 59 ->
    getUTCHours date = Int h -> getMinutes LocalTZA date = Int m ->
    getUTCHours date' = Int (h + 12) -> getMinutes LocalTZA date' = Int m ->
    angleBetweenClockHands (F := R) LocalTZA date'
    = angleBetweenClockHands (F := R) LocalTZA date
    /\ angleBetweenClockHands (F := spec_float) LocalTZA date'
       = angleBetweenClockHands (F := spec_float) LocalTZA date.
Proof.
  intros date date' h m Hhr Hmr Hh Hm Hh' Hm'. split.
  - destruct (angle_exact LocalTZA date h m Hh Hm ltac:(lia) ltac:(lia)) as [E _].
    destruct (angle_exact LocalTZA date' (h + 12) m Hh' Hm' ltac:(lia) ltac:(lia))
      as [E' _].
    rewrite E, E', smaller_angle_plus_12. reflexivity.
  - rewrite (angle_at_clock_date LocalTZA date h m) by (assumption || lia).
    rewrite (angle_at_clock_date LocalTZA date' (h + 12) m) by (assumption || lia).
    apply angle_binary64_plus_12; lia.
Qed.

End ClockAngle.

(** ** The theorems at concrete dates *)

(** C1 as stated fails: 2000-02-01T10:00:00Z and the instant 100 hours later
    are rendered with the hour field "00", not "100". *)
Lemma timeSpanToString_hours_grow_counterexample :
  let startDate := mkDate (Int 949399200000) in
  let endDate := mkDate (Int 949759200000) in
  let diff := Z.abs (949759200000 - 949399200000) in
  ~ (360000000 <= diff ->
     hour_field (timeSpanToString startDate endDate) = digits (diff / 3600000)).
Proof.
  intros startDate endDate diff H.
  assert (Hd : 360000000 <= diff) by (vm_compute; discriminate).
  specialize (H Hd). vm_compute in H. discriminate H.
Qed.

(** 2000-02-01T10:00:00Z and the instant 100 hours later: the hour field is
    "00", the decimal hour count is "100". *)
Lemma timeSpanToString_hours_truncated_witness :
  let s := timeSpanToString (mkDate (Int 949399200000)) (mkDate (Int 949759200000)) in
  hour_field s = zero_pad 2 ((Z.abs (949759200000 - 949399200000) / 3600000) mod 100)
  /\ String.length (hour_field s) = 2%nat
  /\ hour_field s <> digits (Z.abs (949759200000 - 949399200000) / 3600000).
Proof.
  apply (timeSpanToString_hours_truncated
           (mkDate (Int 949399200000)) (mkDate (Int 949759200000))
           949399200000 949759200000);
    [reflexivity|reflexivity|vm_compute; discriminate|vm_compute; discriminate].
Defined.

(** C3 as stated fails on the same two dates, 100 hours apart: the hour
    count 100 padded to two digits is "100", the function returns "00". *)
Lemma timeSpanToString_fields_counterexample :
  let diff := Z.abs (949759200000 - 949399200000) in
  timeSpanToString (mkDate (Int 949399200000)) (mkDate (Int 949759200000))
  <> zero_pad 2 (diff / 3600000) ++ ":" ++ zero_pad 2 (diff mod 3600000 / 60000)
     ++ ":" ++ zero_pad 2 (diff mod 60000 / 1000) ++ "." ++ zero_pad 3 (diff mod 1000).
Proof. vm_compute. discriminate. Qed.

(** 2000-02-01T10:00:00Z and the instant 100 hours later, and 2000-02-01
    from 10:00:00.000 to 15:20:10.453 UTC. *)
Lemma timeSpanToString_fields_witness :
  timeSpanToString (mkDate (Int 949399200000)) (mkDate (Int 949759200000))
  = "00:00:00.000"
  /\ timeSpanToString (mkDate (Int 949399200000)) (mkDate (Int 949418410453))
     = "05:20:10.453".
Proof.
  destruct (timeSpanToString_fields
              (mkDate (Int 949399200000)) (mkDate (Int 949759200000))
              949399200000 949759200000 eq_refl eq_refl)
    as (_ & H100 & _).
  destruct (timeSpanToString_fields
              (mkDate (Int 949399200000)) (mkDate (Int 949418410453))
              949399200000 949418410453 eq_refl eq_refl)
    as (_ & _ & _ & _ & _ & _ & H).
  split; [|exact (H eq_refl)].
  exact (H100 ltac:(vm_compute; discriminate)).
Defined.


(** The first of February of 1900, 2000, 2001, 2012 and 2015, in UTC. *)
Lemma isLeapYear_correct_witness :
  isLeapYear UTC_zone (mkDate (Int (-2206310400000))) = false
  /\ isLeapYear UTC_zone (mkDate (Int 949363200000)) = true
  /\ isLeapYear UTC_zone (mkDate (Int 980985600000)) = false
  /\ isLeapYear UTC_zone (mkDate (Int 1328054400000)) = true
  /\ isLeapYear UTC_zone (mkDate (Int 1422748800000)) = false.
Proof.
  destruct (isLeapYear_correct UTC_zone (mkDate (Int (-2206310400000))) 1900 eq_refl)
    as (_ & H1900 & _).
  destruct (isLeapYear_correct UTC_zone (mkDate (Int 949363200000)) 2000 eq_refl)
    as (_ & _ & H2000 & _).
  destruct (isLeapYear_correct UTC_zone (mkDate (Int 980985600000)) 2001 eq_refl)
    as (_ & _ & _ & H2001 & _).
  destruct (isLeapYear_correct UTC_zone (mkDate (Int 1328054400000)) 2012 eq_refl)
    as (_ & _ & _ & _ & H2012 & _).
  destruct (isLeapYear_correct UTC_zone (mkDate (Int 1422748800000)) 2015 eq_refl)
    as (_ & _ & _ & _ & _ & H2015).
  exact (conj (H1900 eq_refl) (conj (H2000 eq_refl) (conj (H2001 eq_refl)
          (conj (H2012 eq_refl) (H2015 eq_refl))))).
Defined.

(** "not-a-date" with a parser that rejects it. *)
Lemma parsers_never_throw_witness :
  exists d : Date,
    parseDataFromRfc2822 epoch_parser (VString "not-a-date") = Normal d
    /\ parseDataFromIso8601 epoch_parser (VString "not-a-date") = Normal d
    /\ isValidDate d = false.
Proof.
  destruct (parsers_never_throw epoch_parser "not-a-date") as (d & H1 & H2 & H3 & _).
  exists d. repeat split; try assumption. apply H3. reflexivity.
Defined.

(** 2016-03-05 at 10:17 UTC. *)
Lemma angleBetweenClockHands_range_witness :
  (exists a : R,
      angleBetweenClockHands (F := R) UTC_zone (mkDate (Int 1457173020000)) = Some a
      /\ (0 <= a <= PI)%R
      /\ a = smaller_angle 10 17)
  /\ within_0_PI
       (angleBetweenClockHands (F := spec_float) UTC_zone (mkDate (Int 1457173020000)))
     = true.
Proof.
  apply (angleBetweenClockHands_range UTC_zone (mkDate (Int 1457173020000)) 10 17);
    [reflexivity|reflexivity|lia|lia].
Defined.

(** 2016-03-05T10:15:20.500Z, local time 10:15, and 2016-03-06T10:45:00Z,
    local time 11:15: the same UTC hour and local minute, another date,
    local hour, UTC minute, second and millisecond. *)
Lemma angleBetweenClockHands_reads_hour_and_minute_witness :
  angleBetweenClockHands (F := spec_float) half_hour_shift_zone
    (mkDate (Int 1457172920500))
  = angleBetweenClockHands (F := spec_float) half_hour_shift_zone
      (mkDate (Int 1457261100000))
  /\ MinFromTime 1457172920500 <> MinFromTime 1457261100000.
Proof.
  split.
  - apply (angleBetweenClockHands_reads_hour_and_minute half_hour_shift_zone
             spec_float Binary64); reflexivity.
  - vm_compute. discriminate.
Defined.

(** Date.UTC(2016,2,5,0,0), Date.UTC(2016,3,5,3,0), Date.UTC(2016,3,5,18,0)
    and Date.UTC(2016,3,5,21,0). *)
Lemma angleBetweenClockHands_examples_witness :
  angleBetweenClockHands (F := R) UTC_zone (mkDate (Int 1457136000000)) = Some 0%R
  /\ angleBetweenClockHands (F := R) UTC_zone (mkDate (Int 1459825200000))
     = Some (PI / 2)%R
  /\ angleBetweenClockHands (F := R) UTC_zone (mkDate (Int 1459879200000)) = Some PI
  /\ angleBetweenClockHands (F := R) UTC_zone (mkDate (Int 1459890000000))
     = Some (PI / 2)%R.
Proof.
  destruct (angleBetweenClockHands_examples UTC_zone
              (mkDate (Int 1457136000000)) 0 eq_refl eq_refl) as (H0 & _).
  destruct (angleBetweenClockHands_examples UTC_zone
              (mkDate (Int 1459825200000)) 3 eq_refl eq_refl) as (_ & H3 & _).
  destruct (angleBetweenClockHands_examples UTC_zone
              (mkDate (Int 1459879200000)) 18 eq_refl eq_refl) as (_ & _ & H18 & _).
  destruct (angleBetweenClockHands_examples UTC_zone
              (mkDate (Int 1459890000000)) 21 eq_refl eq_refl) as (_ & _ & _ & H21).
  exact (conj (proj1 (H0 eq_refl)) (conj (proj1 (H3 eq_refl))
          (conj (proj1 (H18 eq_refl)) (proj1 (H21 eq_refl))))).
Defined.

(** 2016-03-05 at 0:33 and at 12:33 UTC. *)
Lemma angleBetweenClockHands_plus_12_witness :
  angleBetweenClockHands (F := R) UTC_zone (mkDate (Int 1457181180000))
  = angleBetweenClockHands (F := R) UTC_zone (mkDate (Int 1457137980000))
  /\ angleBetweenClockHands (F := spec_float) UTC_zone (mkDate (Int 1457181180000))
     = angleBetweenClockHands (F := spec_float) UTC_zone (mkDate (Int 1457137980000)).
Proof.
  apply (angleBetweenClockHands_plus_12 UTC_zone
           (mkDate (Int 1457137980000)) (mkDate (Int 1457181180000)) 0 33);
    [lia|lia|reflexivity|reflexivity|reflexivity|reflexivity].
Defined.

(** ** More on [timeSpanToString]: what the string tells about the span *)

Lemma digit_value_digit_char (x : Z) : digit_value (digit_char (x mod 10)) = x mod 10.
Proof.
  pose proof (Z.mod_pos_bound x 10 ltac:(lia)) as Hr.
  assert (H : x mod 10 = 0 \/ x mod 10 = 1 \/ x mod 10 = 2 \/ x mod 10 = 3 \/
              x mod 10 = 4 \/ x mod 10 = 5 \/ x mod 10 = 6 \/ x mod 10 = 7 \/
              x mod 10 = 8 \/ x mod 10 = 9) by lia.
  repeat destruct H as [H|H]; rewrite H; reflexivity.
Qed.

Lemma two_digits_value (x : Z) : 10 * (10 * 0 + x / 10 mod 10) + x mod 10 = x mod 100.
Proof. Z.div_mod_to_equations. lia. Qed.

Lemma three_digits_value (x : Z) :
  10 * (10 * (10 * 0 + x / 10 / 10 mod 10) + x / 10 mod 10) + x mod 10 = x mod 1000.
Proof. Z.div_mod_to_equations. lia. Qed.

Lemma span_of_render (h m s ms : Z) :
  span_of_string
    (last_digits 2 h ++ ":" ++ last_digits 2 m ++ ":" ++
     last_digits 2 s ++ "." ++ last_digits 3 ms)
  = Some (3600000 * (h mod 100) + 60000 * (m mod 100) + 1000 * (s mod 100)
          + ms mod 1000).
Proof.
  unfold span_of_string. destruct (render_shape h m s ms) as (_ & -> & _).
  cbn [last_digits append substring decimal_value].
  rewrite !digit_value_digit_char, three_digits_value, !two_digits_value.
  reflexivity.
Qed.

Lemma span_fields (d : Z) :
  0 <= d ->
  3600000 * ((d / 3600000) mod 100) + 60000 * ((d mod 3600000 / 60000) mod 100)
  + 1000 * ((d mod 60000 / 1000) mod 100) + (d mod 1000) mod 1000
  = d mod 360000000.
Proof. intros Hd. Z.div_mod_to_equations. lia. Qed.

Lemma below_100_hours_safe (d : Z) : d < 360000000 -> d <= 2 ^ 53.
Proof. change (2 ^ 53) with 9007199254740992. lia. Qed.

(** Reading the result back gives the span modulo 100 hours. *)
Lemma span_of_timeSpanToString (t1 t2 : Z) :
  Z.abs (t2 - t1) <= 2 ^ 53 ->
  span_of_string (timeSpanToString (mkDate (Int t1)) (mkDate (Int t2)))
  = Some (Z.abs (t2 - t1) mod 360000000).
Proof.
  intros Hsafe. rewrite timeSpanToString_render by exact Hsafe.
  cbv zeta. rewrite span_of_render.
  f_equal. apply span_fields. lia.
Qed.

(** The result is the one for the epoch and the instant that lies the span
    modulo 100 hours after it. *)
Lemma timeSpanToString_canonical (t1 t2 : Z) :
  Z.abs (t2 - t1) <= 2 ^ 53 ->
  timeSpanToString (mkDate (Int t1)) (mkDate (Int t2))
  = timeSpanToString (mkDate (Int 0))
      (mkDate (Int (Z.abs (t2 - t1) mod 360000000))).
Proof.
  intros Hsafe. rewrite (timeSpanToString_render t1 t2) by exact Hsafe. cbv zeta.
  set (d := Z.abs (t2 - t1)). assert (Hd : 0 <= d) by (subst d; lia). clearbody d.
  pose proof (Z.mod_pos_bound d 360000000 ltac:(lia)) as Hr.
  rewrite timeSpanToString_render
    by (apply below_100_hours_safe; lia).
  cbv zeta.
  replace (Z.abs (d mod 360000000 - 0)) with (d mod 360000000) by lia.
  rewrite (Z.mod_mod_divide d 360000000 3600000) by (exists 100; lia).
  rewrite (Z.mod_mod_divide d 360000000 60000) by (exists 6000; lia).
  rewrite (Z.mod_mod_divide d 360000000 1000) by (exists 360000; lia).
  replace (d mod 360000000 / 3600000) with ((d / 3600000) mod 100)
    by (Z.div_mod_to_equations; lia).
  change 100 with (10 ^ Z.of_nat 2).
  rewrite (last_digits_mod 2 (d / 3600000)). reflexivity.
Qed.

Lemma timeSpanToString_eq_iff (t1 t2 u1 u2 : Z) :
  Z.abs (t2 - t1) <= 2 ^ 53 -> Z.abs (u2 - u1) <= 2 ^ 53 ->
  timeSpanToString (mkDate (Int t1)) (mkDate (Int t2))
  = timeSpanToString (mkDate (Int u1)) (mkDate (Int u2))
  <-> Z.abs (t2 - t1) mod 360000000 = Z.abs (u2 - u1) mod 360000000.
Proof.
  intros Ht Hu. split; intros H.
  - apply (f_equal span_of_string) in H.
    rewrite !span_of_timeSpanToString in H by assumption. now injection H.
  - rewrite (timeSpanToString_canonical t1 t2), (timeSpanToString_canonical u1 u2), H
      by assumption.
    reflexivity.
Qed.

(** X1. For two valid dates at most 2^53 ms apart, reading the result back
    as hours, minutes, seconds and milliseconds gives their absolute
    difference modulo 100 hours, hence the difference itself when it is
    below 100 hours. *)
Theorem timeSpanToString_read_back :
  forall (startDate endDate : Date) (t1 t2 : Z),
    getTime startDate = Int t1 -> getTime endDate = Int t2 ->
    Z.abs (t2 - t1) <= 2 ^ 53 ->
    span_of_string (timeSpanToString startDate endDate)
    = Some (Z.abs (t2 - t1) mod 360000000)
    /\ (Z.abs (t2 - t1) < 360000000 ->
        span_of_string (timeSpanToString startDate endDate)
        = Some (Z.abs (t2 - t1))).
Proof.
  intros [v1] [v2] t1 t2 H1 H2 Hsafe. cbn in H1, H2. subst v1 v2.
  split; [now apply span_of_timeSpanToString|].
  intros Hlt. rewrite span_of_timeSpanToString, Z.mod_small by lia. reflexivity.
Qed.

(** X2. Two pairs of valid dates, each at most 2^53 ms apart, are rendered
    alike exactly when their absolute differences agree modulo 100 hours:
    below 100 hours different spans give different strings, and spans 100
    hours apart collide. *)
Theorem timeSpanToString_equal_iff :
  forall (a b c d : Date) (ta tb tc td : Z),
    getTime a = Int ta -> getTime b = Int tb ->
    getTime c = Int tc -> getTime d = Int td ->
    Z.abs (tb - ta) <= 2 ^ 53 -> Z.abs (td - tc) <= 2 ^ 53 ->
    (timeSpanToString a b = timeSpanToString c d
     <-> Z.abs (tb - ta) mod 360000000 = Z.abs (td - tc) mod 360000000)
    /\ (Z.abs (tb - ta) < 360000000 -> Z.abs (td - tc) < 360000000 ->
        timeSpanToString a b = timeSpanToString c d ->
        Z.abs (tb - ta) = Z.abs (td - tc))
    /\ (Z.abs (td - tc) = Z.abs (tb - ta) + 360000000 ->
        timeSpanToString a b = timeSpanToString c d).
Proof.
  intros [va] [vb] [vc] [vd] ta tb tc td Ha Hb Hc Hd Sab Scd.
  cbn in Ha, Hb, Hc, Hd. subst va vb vc vd.
  pose proof (timeSpanToString_eq_iff ta tb tc td Sab Scd) as Hiff.
  split; [exact Hiff|]. split.
  - intros H1 H2 E. apply Hiff in E. rewrite !Z.mod_small in E by lia. exact E.
  - intros E. apply Hiff. rewrite E.
    replace (Z.abs (tb - ta) + 360000000) with (Z.abs (tb - ta) + 1 * 360000000) by lia.
    now rewrite Z.mod_add by lia.
Qed.

(** X3. An Invalid Date on either side gives "00:00:00.000"; two valid dates
    at most 2^53 ms apart give it exactly when they are a multiple of 100
    hours apart; a date and itself always give it. *)
Theorem timeSpanToString_zero_iff :
  forall startDate endDate : Date,
    (isValidDate startDate = false \/ isValidDate endDate = false ->
     timeSpanToString startDate endDate = "00:00:00.000")
    /\ (forall t1 t2 : Z,
          getTime startDate = Int t1 -> getTime endDate = Int t2 ->
          Z.abs (t2 - t1) <= 2 ^ 53 ->
          (timeSpanToString startDate endDate = "00:00:00.000"
           <-> Z.abs (t2 - t1) mod 360000000 = 0))
    /\ timeSpanToString startDate startDate = "00:00:00.000".
Proof.
  intros startDate endDate. split; [|split].
  - intros H. apply timeSpanToString_invalid.
    destruct startDate as [[|t1]], endDate as [[|t2]]; cbn in *; auto;
      destruct H; discriminate.
  - intros t1 t2 H1 H2 Hsafe.
    destruct startDate as [v1], endDate as [v2]. cbn in H1, H2. subst v1 v2.
    change "00:00:00.000" with (timeSpanToString (mkDate (Int 0)) (mkDate (Int 0))).
    rewrite (timeSpanToString_eq_iff t1 t2 0 0 Hsafe) by (vm_compute; discriminate).
    reflexivity.
  - destruct startDate as [[|t]]; [reflexivity|].
    change "00:00:00.000" with (timeSpanToString (mkDate (Int 0)) (mkDate (Int 0))).
    apply timeSpanToString_eq_iff;
      rewrite ?Z.sub_diag; try (vm_compute; discriminate). reflexivity.
Qed.

(** ** More on [isLeapYear]: the calendar of the platform *)

Lemma YearFromTime_unique (t y : Z) :
  DayFromYear y <= Day t < DayFromYear (y + 1) -> YearFromTime t = y.
Proof.
  intros [Hlo Hhi]. pose proof (YearFromTime_bounds t) as [Blo Bhi].
  destruct (Z.lt_trichotomy (YearFromTime t) y) as [Hlt|[Heq|Hgt]]; [|exact Heq|].
  - pose proof (DayFromYear_mono (YearFromTime t + 1) y ltac:(lia)). lia.
  - pose proof (DayFromYear_mono (y + 1) (YearFromTime t) ltac:(lia)). lia.
Qed.

Lemma DayFromYear_cycle (y : Z) : DayFromYear (y + 400) = DayFromYear y + 146097.
Proof. unfold DayFromYear. Z.div_mod_to_equations. lia. Qed.

(** 146097 days later it is 400 years later. *)
Lemma YearFromTime_cycle (t : Z) :
  YearFromTime (t + 146097 * msPerDay) = YearFromTime t + 400.
Proof.
  apply YearFromTime_unique. pose proof (YearFromTime_bounds t) as B.
  replace (YearFromTime t + 400 + 1) with (YearFromTime t + 1 + 400) by lia.
  rewrite !DayFromYear_cycle. unfold Day in *.
  rewrite Z.div_add by (unfold msPerDay; lia). lia.
Qed.

Section LeapYears.

Variable LocalTZA : Z -> Z.

(** The test of the source, on the year. *)
Lemma isLeapYear_rule (date : Date) (y : Z) :
  getFullYear LocalTZA date = Int y ->
  (isLeapYear LocalTZA date = true <->
   (y mod 4 = 0 /\ y mod 100 <> 0) \/ y mod 400 = 0).
Proof.
  intros Hy. unfold isLeapYear. rewrite Hy.
  unfold Number_neq. cbn [Number_rem Number_eq Z.eqb].
  pose proof (Z.rem_mod_eq_0 y 4 ltac:(lia)).
  pose proof (Z.rem_mod_eq_0 y 100 ltac:(lia)).
  pose proof (Z.rem_mod_eq_0 y 400 ltac:(lia)).
  destruct (Z.eqb_spec (Z.rem y 100) 0), (Z.eqb_spec (Z.rem y 4) 0),
    (Z.eqb_spec (Z.rem y 400) 0); cbn [negb orb andb]; intuition congruence.
Qed.

(** X4. [isLeapYear] agrees with the day numbering of the platform: it is
    true exactly when the year of the date has 366 days, and false exactly
    when it has 365. *)
Theorem isLeapYear_iff_366_days :
  forall (date : Date) (y : Z),
    getFullYear LocalTZA date = Int y ->
    (isLeapYear LocalTZA date = true <-> DayFromYear (y + 1) - DayFromYear y = 366)
    /\ (isLeapYear LocalTZA date = false <-> DayFromYear (y + 1) - DayFromYear y = 365).
Proof.
  intros date y Hy. pose proof (isLeapYear_rule date y Hy) as Hrule.
  rewrite DayFromYear_succ.
  replace (DayFromYear y + DaysInYear y - DayFromYear y) with (DaysInYear y) by lia.
  pose proof (Z.mod_mod_divide y 100 4 ltac:(exists 25; lia)) as E1.
  pose proof (Z.mod_mod_divide y 400 100 ltac:(exists 4; lia)) as E2.
  unfold DaysInYear.
  destruct (Z.eqb_spec (y mod 4) 0) as [H4|H4],
           (Z.eqb_spec (y mod 100) 0) as [H100|H100],
           (Z.eqb_spec (y mod 400) 0) as [H400|H400]; cbn [negb];
    try (exfalso; try rewrite H400 in E2; try rewrite H100 in E1;
         cbn in E1, E2; congruence);
    destruct (isLeapYear LocalTZA date);
    split; split; intros H; try reflexivity; try discriminate; try lia;
    exfalso; intuition congruence.
Qed.

(** X5. The answer repeats with the 400-year cycle of the calendar: 146097
    days later, in a zone whose offset is the same at both instants, it is
    the same. *)
Theorem isLeapYear_400_year_cycle :
  forall t : Z,
    LocalTZA (t + 146097 * msPerDay) = LocalTZA t ->
    getFullYear LocalTZA (mkDate (Int (t + 146097 * msPerDay)))
    = Int (YearFromTime (LocalTime LocalTZA t) + 400)
    /\ isLeapYear LocalTZA (mkDate (Int (t + 146097 * msPerDay)))
       = isLeapYear LocalTZA (mkDate (Int t)).
Proof.
  intros t Hz.
  assert (Hy : getFullYear LocalTZA (mkDate (Int (t + 146097 * msPerDay)))
               = Int (YearFromTime (LocalTime LocalTZA t) + 400)).
  { unfold getFullYear, LocalTime. cbn [DateValue]. rewrite Hz.
    replace (t + 146097 * msPerDay + LocalTZA t)
      with (t + LocalTZA t + 146097 * msPerDay) by lia.
    now rewrite YearFromTime_cycle. }
  split; [exact Hy|].
  pose proof (isLeapYear_rule _ _ Hy) as R'.
  pose proof (isLeapYear_rule (mkDate (Int t)) _ eq_refl) as R.
  set (y := YearFromTime (LocalTime LocalTZA t)) in *.
  replace ((y + 400) mod 4) with (y mod 4) in R'
    by (replace (y + 400) with (y + 100 * 4) by lia; now rewrite Z.mod_add by lia).
  replace ((y + 400) mod 100) with (y mod 100) in R'
    by (replace (y + 400) with (y + 4 * 100) by lia; now rewrite Z.mod_add by lia).
  replace ((y + 400) mod 400) with (y mod 400) in R'
    by (replace (y + 400) with (y + 1 * 400) by lia; now rewrite Z.mod_add by lia).
  destruct (isLeapYear LocalTZA (mkDate (Int (t + 146097 * msPerDay)))),
    (isLeapYear LocalTZA (mkDate (Int t))); try reflexivity; exfalso.
  - assert (false = true) by (apply R, R'; reflexivity). discriminate.
  - assert (false = true) by (apply R', R; reflexivity). discriminate.
Qed.

(** X6. Leap years are at least four years apart: a date in one of the three
    years after a leap year is never in a leap year. *)
Theorem isLeapYear_then_three_common_years :
  forall (date date' : Date) (y k : Z),
    getFullYear LocalTZA date = Int y ->
    getFullYear LocalTZA date' = Int (y + k) ->
    1 <= k <= 3 ->
    isLeapYear LocalTZA date = true ->
    isLeapYear LocalTZA date' = false.
Proof.
  intros date date' y k Hy Hy' Hk Hleap.
  apply (isLeapYear_rule date y Hy) in Hleap.
  pose proof (isLeapYear_rule date' (y + k) Hy') as R'.
  destruct (isLeapYear LocalTZA date'); [exfalso|reflexivity].
  pose proof (Z.mod_mod_divide y 400 4 ltac:(exists 100; lia)) as E.
  pose proof (Z.mod_mod_divide (y + k) 400 4 ltac:(exists 100; lia)) as E'.
  assert (H4 : y mod 4 = 0).
  { destruct Hleap as [[H _]|H]; [exact H|]. rewrite H in E. cbn in E. congruence. }
  assert (H4' : (y + k) mod 4 = 0).
  { destruct (proj1 R' eq_refl) as [[H _]|H]; [exact H|].
    rewrite H in E'. cbn in E'. congruence. }
  clear - H4 H4' Hk. Z.div_mod_to_equations. lia.
Qed.

End LeapYears.

(** ** More on the parsers *)

Section Parsers.

Variable Date_parse : string -> Number.

(** X7. The two parsers are the same function: on every value, string or
    not, they return the same date or throw the same error. *)
Theorem parsers_agree :
  forall value : Value,
    parseDataFromRfc2822 Date_parse value = parseDataFromIso8601 Date_parse value.
Proof.
  intros value. unfold parseDataFromRfc2822, parseDataFromIso8601.
  destruct (new_Date Date_parse value); reflexivity.
Qed.

(** X8. Among the primitive values (objects, which [new Date] converts
    first, are not modelled) a parser throws exactly on a symbol and on a
    bigint, and then it throws a [TypeError]; on every other primitive value
    it returns a date. *)
Theorem parsers_throw_iff :
  forall value : Value,
    ((exists e, parseDataFromRfc2822 Date_parse value = Throw e)
     <-> (exists d, value = VSymbol d) \/ (exists z, value = VBigInt z))
    /\ (forall e, parseDataFromRfc2822 Date_parse value = Throw e -> e = "TypeError")
    /\ ((exists e, parseDataFromIso8601 Date_parse value = Throw e)
        <-> (exists d, value = VSymbol d) \/ (exists z, value = VBigInt z))
    /\ (forall e, parseDataFromIso8601 Date_parse value = Throw e -> e = "TypeError").
Proof.
  intros value.
  destruct value as [| |b|n|s|d|z]; cbn;
    (split; [split; [intros [e H]; try discriminate H; eauto
                    | intros [[x H]|[x H]]; try discriminate H; eauto] |]);
    (split; [intros e H; try discriminate H; now injection H |]);
    (split; [split; [intros [e H]; try discriminate H; eauto
                    | intros [[x H]|[x H]]; try discriminate H; eauto] |]);
    intros e H; try discriminate H; now injection H.
Qed.

(** X9. A date that a parser returns is an Invalid Date or holds a time
    value of at most 8.64e15 ms in magnitude; a string that the platform
    parses to an instant beyond that gives the Invalid Date. *)
Theorem parsers_clip_time_values :
  forall (s : string) (d : Date),
    parseDataFromIso8601 Date_parse (VString s) = Normal d ->
    parseDataFromRfc2822 Date_parse (VString s) = Normal d
    /\ (forall t, getTime d = Int t ->
                  Z.abs t <= maxTimeValue /\ Date_parse s = Int t)
    /\ (forall t, Date_parse s = Int t -> maxTimeValue < Z.abs t ->
                  isValidDate d = false).
Proof.
  intros s d H. cbn in H. injection H as <-.
  split; [reflexivity|]. cbn [getTime DateValue isValidDate]. split.
  - intros t. destruct (Date_parse s) as [|x]; cbn [TimeClip]; [discriminate|].
    destruct (Z.gtb_spec (Z.abs x) maxTimeValue); [discriminate|].
    intros E. injection E as <-. split; [assumption|reflexivity].
  - intros t -> Ht. cbn [TimeClip].
    destruct (Z.gtb_spec (Z.abs t) maxTimeValue); [reflexivity|lia].
Qed.

End Parsers.

(** ** More on [angleBetweenClockHands] *)

Lemma same_double_refl (x : spec_float) : same_double x x = true.
Proof.
  destruct x as [s|s| |s m e]; cbn; try reflexivity; try apply Bool.eqb_reflx.
  now rewrite Bool.eqb_reflx, Pos.eqb_refl, Z.eqb_refl.
Qed.

Lemma same_result_iff (x y : option spec_float) : same_result x y = true <-> x = y.
Proof.
  split; [apply same_result_eq|]. intros <-.
  destruct x; [apply same_double_refl|reflexivity].
Qed.

Lemma hand_difference (h m : Z) :
  (hour_hand h m - minute_hand m = IZR (60 * (h mod 12) - 11 * m) / 2)%R.
Proof.
  unfold hour_hand, minute_hand. rewrite minus_IZR, !mult_IZR. lra.
Qed.

(** The smaller angle is a whole number of half degrees. *)
Lemma smaller_angle_half_degrees (h m : Z) :
  0 <= m <= 59 ->
  smaller_angle h m = (IZR (half_degrees h m) * PI / 360)%R
  /\ 0 <= half_degrees h m <= 360.
Proof.
  intros Hm. pose proof (Z.mod_pos_bound h 12 ltac:(lia)) as Hk. split.
  - unfold smaller_angle. rewrite Rmin_radians, hand_difference.
    unfold half_degrees. set (z := 60 * (h mod 12) - 11 * m).
    replace (Rabs (IZR z / 2)) with (IZR (Z.abs z) / 2)%R.
    2:{ unfold Rdiv. rewrite Rabs_mult, (Rabs_pos_eq (/ 2)) by lra.
        now rewrite abs_IZR. }
    assert (E : (Rmin (IZR (Z.abs z) / 2) (360 - IZR (Z.abs z) / 2)
                 = IZR (Z.min (Z.abs z) (720 - Z.abs z)) / 2)%R).
    { destruct (Z.min_spec (Z.abs z) (720 - Z.abs z)) as [[Hlt ->]|[Hle ->]].
      - rewrite Rmin_left; [reflexivity|].
        assert (IZR (Z.abs z) <= IZR (720 - Z.abs z))%R by (apply IZR_le; lia).
        rewrite minus_IZR in *. lra.
      - rewrite Rmin_right.
        + rewrite minus_IZR. lra.
        + assert (IZR (720 - Z.abs z) <= IZR (Z.abs z))%R by (apply IZR_le; lia).
          rewrite minus_IZR in *. lra. }
    rewrite E. field.
  - unfold half_degrees. lia.
Qed.

Lemma binary64_zero_times :
  forallb (fun h =>
    forallb (fun m =>
      Bool.eqb
        (same_result
           (angleBetweenClockHands (F := spec_float) UTC_zone (clock_date h m))
           (Some (binary64_of_int 0)))
        (((h =? 0) || (h =? 12)) && (m =? 0)))
      minutes_of_hour) hours_of_day = true.
Proof. vm_compute. reflexivity. Qed.

Lemma binary64_PI_times :
  forallb (fun h =>
    forallb (fun m =>
      Bool.eqb
        (same_result
           (angleBetweenClockHands (F := spec_float) UTC_zone (clock_date h m))
           (Some binary64_PI))
        (((h =? 6) || (h =? 18)) && (m =? 0)))
      minutes_of_hour) hours_of_day = true.
Proof. vm_compute. reflexivity. Qed.

Section ClockAngleMore.

Variable LocalTZA : Z -> Z.

(** X11. In exact arithmetic the result is a whole number of half degrees,
    between 0 and 360 of them: with k = |60 (h mod 12) - 11 m| it is
    min (k, 720 - k) times PI / 360. *)
Theorem angleBetweenClockHands_half_degrees :
  forall (date : Date) (h m : Z),
    getUTCHours date = Int h -> getMinutes LocalTZA date = Int m ->
    0 <= h <= 23 -> 0 <= m <= 59 ->
    angleBetweenClockHands (F := R) LocalTZA date
    = Some (IZR (half_degrees h m) * PI / 360)%R
    /\ 0 <= half_degrees h m <= 360.
Proof.
  intros date h m Hh Hm Hhr Hmr.
  destruct (angle_exact LocalTZA date h m Hh Hm ltac:(lia) ltac:(lia)) as [E _].
  destruct (smaller_angle_half_degrees h m Hmr) as [S R].
  rewrite E, S. split; [reflexivity|exact R].
Qed.

(** X12. The result is 0 exactly at 0:00 and at 12:00, in exact arithmetic
    and in binary64. *)
Theorem angleBetweenClockHands_zero_iff :
  forall (date : Date) (h m : Z),
    getUTCHours date = Int h -> getMinutes LocalTZA date = Int m ->
    0 <= h <= 23 -> 0 <= m <= 59 ->
    (angleBetweenClockHands (F := R) LocalTZA date = Some 0%R
     <-> (h = 0 \/ h = 12) /\ m = 0)
    /\ (angleBetweenClockHands (F := spec_float) LocalTZA date
        = Some (binary64_of_int 0)
        <-> (h = 0 \/ h = 12) /\ m = 0).
Proof.
  intros date h m Hh Hm Hhr Hmr. split.
  - destruct (angle_exact LocalTZA date h m Hh Hm ltac:(lia) ltac:(lia)) as [E _].
    destruct (smaller_angle_half_degrees h m Hmr) as [S R].
    rewrite E, S. pose proof PI_RGT_0 as Hpi.
    assert (Hn : half_degrees h m = 0 <-> (h = 0 \/ h = 12) /\ m = 0).
    { unfold half_degrees. Z.div_mod_to_equations. lia. }
    rewrite <- Hn. split.
    + intros H. injection H as H. apply eq_IZR.
      assert (IZR (half_degrees h m) * PI = 0)%R by lra.
      destruct (Rmult_integral _ _ H0); lra.
    + intros ->. f_equal. lra.
  - rewrite (angle_at_clock_date LocalTZA date h m) by (assumption || lia).
    rewrite <- same_result_iff.
    pose proof binary64_zero_times as Hall. rewrite forallb_forall in Hall.
    specialize (Hall h (in_hours_of_day h ltac:(lia))). cbv beta in Hall.
    rewrite forallb_forall in Hall.
    specialize (Hall m (in_minutes_of_hour m ltac:(lia))). cbv beta in Hall.
    apply Bool.eqb_prop in Hall. rewrite Hall.
    rewrite andb_true_iff, orb_true_iff, !Z.eqb_eq. reflexivity.
Qed.

(** X13. The result is PI exactly at 6:00 and at 18:00, in exact arithmetic
    and, as the double [Math.PI], in binary64. *)
Theorem angleBetweenClockHands_PI_iff :
  forall (date : Date) (h m : Z),
    getUTCHours date = Int h -> getMinutes LocalTZA date = Int m ->
    0 <= h <= 23 -> 0 <= m <= 59 ->
    (angleBetweenClockHands (F := R) LocalTZA date = Some PI
     <-> (h = 6 \/ h = 18) /\ m = 0)
    /\ (angleBetweenClockHands (F := spec_float) LocalTZA date = Some binary64_PI
        <-> (h = 6 \/ h = 18) /\ m = 0).
Proof.
  intros date h m Hh Hm Hhr Hmr. split.
  - destruct (angle_exact LocalTZA date h m Hh Hm ltac:(lia) ltac:(lia)) as [E _].
    destruct (smaller_angle_half_degrees h m Hmr) as [S R].
    rewrite E, S. pose proof PI_RGT_0 as Hpi.
    assert (Hn : half_degrees h m = 360 <-> (h = 6 \/ h = 18) /\ m = 0).
    { unfold half_degrees. Z.div_mod_to_equations. lia. }
    rewrite <- Hn. split.
    + intros H. injection H as H. apply eq_IZR.
      assert ((IZR (half_degrees h m) - 360) * PI = 0)%R by lra.
      destruct (Rmult_integral _ _ H0); lra.
    + intros ->. f_equal. lra.
  - rewrite (angle_at_clock_date LocalTZA date h m) by (assumption || lia).
    rewrite <- same_result_iff.
    pose proof binary64_PI_times as Hall. rewrite forallb_forall in Hall.
    specialize (Hall h (in_hours_of_day h ltac:(lia))). cbv beta in Hall.
    rewrite forallb_forall in Hall.
    specialize (Hall m (in_minutes_of_hour m ltac:(lia))). cbv beta in Hall.
    apply Bool.eqb_prop in Hall. rewrite Hall.
    rewrite andb_true_iff, orb_true_iff, !Z.eqb_eq. reflexivity.
Qed.

End ClockAngleMore.

(** ** The strings order as the spans do *)

Lemma digit_compare (x y : Z) :
  Ascii.compare (digit_char (x mod 10)) (digit_char (y mod 10))
  = (x mod 10 ?= y mod 10).
Proof.
  pose proof (Z.mod_pos_bound x 10 ltac:(lia)) as Hx.
  pose proof (Z.mod_pos_bound y 10 ltac:(lia)) as Hy.
  assert (Ex : x mod 10 = 0 \/ x mod 10 = 1 \/ x mod 10 = 2 \/ x mod 10 = 3 \/
               x mod 10 = 4 \/ x mod 10 = 5 \/ x mod 10 = 6 \/ x mod 10 = 7 \/
               x mod 10 = 8 \/ x mod 10 = 9) by lia.
  assert (Ey : y mod 10 = 0 \/ y mod 10 = 1 \/ y mod 10 = 2 \/ y mod 10 = 3 \/
               y mod 10 = 4 \/ y mod 10 = 5 \/ y mod 10 = 6 \/ y mod 10 = 7 \/
               y mod 10 = 8 \/ y mod 10 = 9) by lia.
  repeat destruct Ex as [Ex|Ex]; rewrite Ex;
    repeat destruct Ey as [Ey|Ey]; rewrite Ey; reflexivity.
Qed.

(** The nine digits of a span below 100 hours, with their weights. *)
Lemma span_digits (d : Z) :
  0 <= d < 360000000 ->
  let h := d / 3600000 in
  let m := d mod 3600000 / 60000 in
  let s := d mod 60000 / 1000 in
  let ms := d mod 1000 in
  d = 36000000 * ((h / 10) mod 10) + 3600000 * (h mod 10)
      + 600000 * ((m / 10) mod 10) + 60000 * (m mod 10)
      + 10000 * ((s / 10) mod 10) + 1000 * (s mod 10)
      + 100 * ((ms / 10 / 10) mod 10) + 10 * ((ms / 10) mod 10) + ms mod 10
  /\ (m / 10) mod 10 <= 5 /\ (s / 10) mod 10 <= 5.
Proof. intros Hd h m s ms. subst h m s ms. Z.div_mod_to_equations. lia. Qed.

Lemma timeSpanToString_compare (t1 t2 u1 u2 : Z) :
  Z.abs (t2 - t1) < 360000000 -> Z.abs (u2 - u1) < 360000000 ->
  String.compare (timeSpanToString (mkDate (Int t1)) (mkDate (Int t2)))
                 (timeSpanToString (mkDate (Int u1)) (mkDate (Int u2)))
  = (Z.abs (t2 - t1) ?= Z.abs (u2 - u1)).
Proof.
  intros H1 H2.
  rewrite (timeSpanToString_render t1 t2), (timeSpanToString_render u1 u2)
    by (apply below_100_hours_safe; assumption).
  cbv zeta.
  set (d := Z.abs (t2 - t1)) in *. set (e := Z.abs (u2 - u1)) in *.
  destruct (span_digits d ltac:(subst d; lia)) as (Ed & Dm & Ds).
  destruct (span_digits e ltac:(subst e; lia)) as (Ee & Em & Es).
  cbn [last_digits append String.compare]. rewrite !digit_compare.
  change (Ascii.compare ":" ":") with Eq. change (Ascii.compare "." ".") with Eq.
  cbv iota.
  repeat match goal with
         | |- context [?x mod 10] =>
             let B := fresh "B" in
             pose proof (Z.mod_pos_bound x 10 ltac:(lia)) as B;
             generalize dependent (x mod 10); intros
         end.
  clearbody d e.
  repeat match goal with
         | |- context [match ?a ?= ?b with _ => _ end] =>
             destruct (Z.compare_spec a b)
         end;
    symmetry;
    first [apply Z.compare_eq_iff | apply Z.compare_lt_iff | apply Z.compare_gt_iff];
    lia.
Qed.

(** X14. Below 100 hours the results order as the spans do: comparing two
    results as strings gives what comparing the two absolute differences
    gives. *)
Theorem timeSpanToString_sorts_like_spans :
  forall (a b c d : Date) (ta tb tc td : Z),
    getTime a = Int ta -> getTime b = Int tb ->
    getTime c = Int tc -> getTime d = Int td ->
    Z.abs (tb - ta) < 360000000 -> Z.abs (td - tc) < 360000000 ->
    String.compare (timeSpanToString a b) (timeSpanToString c d)
    = (Z.abs (tb - ta) ?= Z.abs (td - tc)).
Proof.
  intros [va] [vb] [vc] [vd] ta tb tc td Ha Hb Hc Hd.
  cbn in Ha, Hb, Hc, Hd. subst va vb vc vd.
  apply timeSpanToString_compare.
Qed.

(** ** The further theorems at concrete dates *)

(** 2000-02-01T10:00:00Z and 2000-02-06T13:04:05.678Z, 123 h 04 min 05.678 s
    apart: the string reads back as 23 h 04 min 05.678 s. *)
Lemma timeSpanToString_read_back_witness :
  span_of_string
    (timeSpanToString (mkDate (Int 949399200000)) (mkDate (Int 949842245678)))
  = Some 83045678.
Proof.
  exact (proj1 (timeSpanToString_read_back
                  (mkDate (Int 949399200000)) (mkDate (Int 949842245678))
                  949399200000 949842245678 eq_refl eq_refl
                  ltac:(vm_compute; discriminate))).
Defined.

(** 5 h 20 min 10.453 s and 105 h 20 min 10.453 s. *)
Lemma timeSpanToString_equal_iff_witness :
  timeSpanToString (mkDate (Int 949399200000)) (mkDate (Int 949418410453))
  = timeSpanToString (mkDate (Int 0)) (mkDate (Int 379210453)).
Proof.
  apply (timeSpanToString_equal_iff
           (mkDate (Int 949399200000)) (mkDate (Int 949418410453))
           (mkDate (Int 0)) (mkDate (Int 379210453))
           949399200000 949418410453 0 379210453
           eq_refl eq_refl eq_refl eq_refl
           ltac:(vm_compute; discriminate) ltac:(vm_compute; discriminate)).
  reflexivity.
Defined.

(** Two spans of 20 s and of 5 h 20 min 10.453 s. *)
Lemma timeSpanToString_sorts_like_spans_witness :
  String.compare
    (timeSpanToString (mkDate (Int 0)) (mkDate (Int 20000)))
    (timeSpanToString (mkDate (Int 949399200000)) (mkDate (Int 949418410453)))
  = Lt.
Proof.
  apply (timeSpanToString_sorts_like_spans
           (mkDate (Int 0)) (mkDate (Int 20000))
           (mkDate (Int 949399200000)) (mkDate (Int 949418410453))
           0 20000 949399200000 949418410453
           eq_refl eq_refl eq_refl eq_refl);
    reflexivity.
Defined.

(** 2000-02-01 in UTC: the year 2000 has 366 days. *)
Lemma isLeapYear_iff_366_days_witness :
  isLeapYear UTC_zone (mkDate (Int 949363200000)) = true
  <-> DayFromYear (2000 + 1) - DayFromYear 2000 = 366.
Proof.
  exact (proj1 (isLeapYear_iff_366_days UTC_zone
                  (mkDate (Int 949363200000)) 2000 eq_refl)).
Defined.

(** 2000-02-01 and 2400-02-01 in UTC. *)
Lemma isLeapYear_400_year_cycle_witness :
  isLeapYear UTC_zone (mkDate (Int (949363200000 + 146097 * msPerDay)))
  = isLeapYear UTC_zone (mkDate (Int 949363200000)).
Proof.
  exact (proj2 (isLeapYear_400_year_cycle UTC_zone 949363200000 eq_refl)).
Defined.

(** 2000-02-01 and 2001-02-01 in UTC. *)
Lemma isLeapYear_then_three_common_years_witness :
  isLeapYear UTC_zone (mkDate (Int 980985600000)) = false.
Proof.
  apply (isLeapYear_then_three_common_years UTC_zone
           (mkDate (Int 949363200000)) (mkDate (Int 980985600000)) 2000 1);
    [reflexivity|reflexivity|lia|reflexivity].
Defined.

(** The Invalid Date. *)
Lemma isLeapYear_invalid_witness : isLeapYear UTC_zone (mkDate NaN) = false.
Proof. exact (isLeapYear_invalid UTC_zone (mkDate NaN) eq_refl). Defined.

(** The one string that [epoch_parser] knows. *)
Lemma parsers_clip_time_values_witness :
  parseDataFromRfc2822 epoch_parser (VString "1970-01-01T00:00:00Z")
  = Normal (mkDate (Int 0)).
Proof.
  exact (proj1 (parsers_clip_time_values epoch_parser "1970-01-01T00:00:00Z"
                  (mkDate (Int 0)) eq_refl)).
Defined.

(** 2016-03-05 at 10:17 UTC: 307 half degrees. *)
Lemma angleBetweenClockHands_half_degrees_witness :
  angleBetweenClockHands (F := R) UTC_zone (mkDate (Int 1457173020000))
  = Some (IZR (half_degrees 10 17) * PI / 360)%R
  /\ 0 <= half_degrees 10 17 <= 360.
Proof.
  apply (angleBetweenClockHands_half_degrees UTC_zone
           (mkDate (Int 1457173020000)) 10 17);
    [reflexivity|reflexivity|lia|lia].
Defined.

(** 2016-03-05 at 0:00 UTC. *)
Lemma angleBetweenClockHands_zero_iff_witness :
  angleBetweenClockHands (F := spec_float) UTC_zone (mkDate (Int 1457136000000))
  = Some (binary64_of_int 0)
  <-> (0 = 0 \/ 0 = 12) /\ 0 = 0.
Proof.
  apply (angleBetweenClockHands_zero_iff UTC_zone (mkDate (Int 1457136000000)) 0 0);
    [reflexivity|reflexivity|lia|lia].
Defined.

(** 2016-04-05 at 18:00 UTC. *)
Lemma angleBetweenClockHands_PI_iff_witness :
  angleBetweenClockHands (F := spec_float) UTC_zone (mkDate (Int 1459879200000))
  = Some binary64_PI
  <-> (18 = 6 \/ 18 = 18) /\ 0 = 0.
Proof.
  apply (angleBetweenClockHands_PI_iff UTC_zone (mkDate (Int 1459879200000)) 18 0);
    [reflexivity|reflexivity|lia|lia].
Defined.
